(** * libnmap.objects.os: OS fingerprint objects

    A shallow embedding of [libnmap/objects/os.py] (the classes [CPE],
    [NmapOSClass], [NmapOSMatch] and [NmapOSFingerprint]) and the
    properties of its constructors and queries.

    Python values are embedded as follows.
    - The attribute dictionaries handed over by the XML decoder
      ([osclass_dict['osclass']], [osmatch_dict['osmatch']]) are finite
      maps from key to a scalar, [gmap string pyval].
    - A dictionary with a fixed set of structural keys whose values have
      different shapes ([{'osclass': .., 'cpe': ..}] and the like) is a
      record with one optional field per key: [None] is "key absent".
    - A raising computation returns [inl e], a returning one [inr v]. *)

From Stdlib Require Import ZArith Ascii String Lia.
From stdpp Require Import base option list gmap strings pretty.

(** ** Scalars and exceptions *)

(** The scalars that occur as values of an attribute dictionary: the
    decoder supplies text, [_add_dummy_osmatch] supplies integers. *)
Inductive pyval : Type :=
| PInt (z : Z)
| PStr (s : string).

(** The exceptions this module can raise. [Exception] is what the
    explicit [raise Exception(msg)] statements produce; the others come
    from the interpreter. *)
Inductive pyerr : Type :=
| Exception (msg : string)
| KeyError (key : string)
| TypeError (msg : string)
| ValueError (msg : string)
| AttributeError (msg : string).

Definition py (A : Type) : Type := pyerr + A.

Definition py_bind {A B : Type} (c : py A) (k : A -> py B) : py B :=
  match c with
  | inl e => inl e
  | inr a => k a
  end.

Notation "'let*' x ':=' c 'in' k" := (py_bind c (fun x => k))
  (at level 10, x name, c at level 100, k at level 200).

(** [try: c except: raise e] with a bare [except]. *)
Definition try_except_all {A : Type} (c : py A) (e : pyerr) : py A :=
  match c with
  | inl _ => inl e
  | inr a => inr a
  end.

(** [d[k]] on an attribute dictionary. *)
Definition getitem (d : gmap string pyval) (k : string) : py pyval :=
  match d !! k with
  | Some v => inr v
  | None => inl (KeyError k)
  end.

(** [k in d] on an attribute dictionary. *)
Definition contains (d : gmap string pyval) (k : string) : bool :=
  bool_decide (is_Some (d !! k)).

(** *** The builtin [int] *)

(** A text is a string of code points below 256. The characters that
    [int] skips around a number: tab to carriage return, the space and,
    beyond ASCII, next line and the no-break space. *)
Definition is_space (a : ascii) : bool :=
  let n := nat_of_ascii a in
  (((9 <=? n) && (n <=? 13)) || (n =? 32) || (n =? 133) || (n =? 160))%nat.

Definition digit_of (a : ascii) : option Z :=
  let n := Z.of_nat (nat_of_ascii a) in
  if ((48 <=? n) && (n <=? 57))%Z then Some (n - 48)%Z else None.

Fixpoint lstrip (s : string) : string :=
  match s with
  | String a s' => if is_space a then lstrip s' else s
  | EmptyString => EmptyString
  end.

Definition strip (s : string) : string :=
  String.rev (lstrip (String.rev (lstrip s))).

(** Decimal digits, a single underscore allowed between two digits.
    [prev] tells whether the previous character was a digit. *)
Fixpoint parse_digits (acc : Z) (prev : bool) (s : string) : option Z :=
  match s with
  | EmptyString => if prev then Some acc else None
  | String a s' =>
      match digit_of a with
      | Some d => parse_digits (10 * acc + d)%Z true s'
      | None =>
          if Ascii.eqb a "_"%char && prev then parse_digits acc false s' else None
      end
  end.

Definition parse_int (s : string) : option Z :=
  match strip s with
  | String "-"%char s' => Z.opp <$> parse_digits 0 false s'
  | String "+"%char s' => parse_digits 0 false s'
  | s' => parse_digits 0 false s'
  end.

(** [repr(s)] of a text: between double quotes when it holds a single
    quote and no double quote, between single quotes otherwise; the
    quote in use and the backslash are escaped, the characters that do
    not print are written as escapes. *)
Definition backslash : ascii := ascii_of_nat 92.
Definition single_quote : ascii := ascii_of_nat 39.
Definition double_quote : ascii := ascii_of_nat 34.

Fixpoint occurs (a : ascii) (s : string) : bool :=
  match s with
  | EmptyString => false
  | String b s' => Ascii.eqb a b || occurs a s'
  end.

Definition hex_digit (n : nat) : ascii :=
  if (n <? 10)%nat then ascii_of_nat (48 + n) else ascii_of_nat (87 + n).

Definition prints (n : nat) : bool :=
  (((32 <=? n) && (n <? 127)) || ((161 <=? n) && negb (n =? 173)))%nat.

Definition repr_char (quote a : ascii) : string :=
  let n := nat_of_ascii a in
  if Ascii.eqb a quote || Ascii.eqb a backslash
  then String backslash (String a EmptyString)
  else if (n =? 9)%nat then String backslash "t"
  else if (n =? 10)%nat then String backslash "n"
  else if (n =? 13)%nat then String backslash "r"
  else if prints n then String a EmptyString
  else String backslash
         (String "x"%char
            (String (hex_digit (n / 16)) (String (hex_digit (n mod 16)) EmptyString))).

Fixpoint repr_chars (quote : ascii) (s : string) : string :=
  match s with
  | EmptyString => EmptyString
  | String a s' => repr_char quote a +:+ repr_chars quote s'
  end.

Definition py_repr (s : string) : string :=
  let quote :=
    if occurs single_quote s && negb (occurs double_quote s)
    then double_quote else single_quote in
  String quote (repr_chars quote s +:+ String quote EmptyString).

Fixpoint first_chars (n : nat) (s : string) : string :=
  match n, s with
  | S n', String a s' => String a (first_chars n' s')
  | _, _ => EmptyString
  end.

(** [int(v)]: the identity on integers, base-10 parsing on text
    (surrounding whitespace ignored, optional sign), [ValueError]
    otherwise, its message showing the first 200 characters of the
    [repr] of the text. The interpreter's limit on the number of digits
    ([sys.set_int_max_str_digits]) is taken as switched off. *)
Definition py_int (v : pyval) : py Z :=
  match v with
  | PInt z => inr z
  | PStr s =>
      match parse_int s with
      | Some z => inr z
      | None =>
          inl (ValueError
                 ("invalid literal for int() with base 10: " +:+
                  first_chars 200 (py_repr s)))
      end
  end.

(** [str(v)], which is also what [format] substitutes for [{n}]. *)
Definition py_str (v : pyval) : string :=
  match v with
  | PInt z => pretty z
  | PStr s => s
  end.

(** [len(v)]: the number of characters of a text; an integer has no
    length. *)
Definition py_len (v : pyval) : py nat :=
  match v with
  | PStr s => inr (String.length s)
  | PInt _ => inl (TypeError "object of type 'int' has no len()")
  end.

(** [template.format(args)] for a template without replacement field:
    the arguments are evaluated and left out. *)
Definition format_no_field (template : string) (args : list string) : string :=
  template.

Definition crlf : string :=
  String (ascii_of_nat 13) (String (ascii_of_nat 10) EmptyString).

(** ** CPE *)

Module CPE.
Record t : Type := mk { _cpestring : string }.

Definition __init__ (cpestring : string) : t := {| _cpestring := cpestring |}.

Definition cpestring (self : t) : string := _cpestring self.

Definition __repr__ (self : t) : string := _cpestring self.
End CPE.

(** ** NmapOSClass *)

(** The argument of [NmapOSClass]: a dictionary with the keys
    ['osclass'] (attributes) and ['cpe'] (list of CPE strings). *)
Record osclass_dict : Type := {
  cd_osclass : option (gmap string pyval);
  cd_cpe : option (list string)
}.

Module NmapOSClass.
Record t : Type := mk {
  _vendor : pyval;
  _osfamily : pyval;
  _accuracy : pyval;
  _osgen : pyval;
  _type : pyval;
  _cpelist : list CPE.t
}.

(** The loop [for _cpe in osclass_dict['cpe']: self._cpelist.append(CPE(_cpe))]. *)
Fixpoint append_cpes (cpelist : list CPE.t) (cpes : list string) : list CPE.t :=
  match cpes with
  | [] => cpelist
  | _cpe :: rest => append_cpes (cpelist ++ [CPE.__init__ _cpe]) rest
  end.

Definition __init__ (osclass_dict : osclass_dict) : py t :=
  match cd_osclass osclass_dict with
  | None => inl (KeyError "osclass")
  | Some _osclass =>
      if negb (contains _osclass "vendor")
         || negb (contains _osclass "osfamily")
         || negb (contains _osclass "accuracy")
      then inl (Exception "Wrong osclass structure: missing required key")
      else
        let* vendor := getitem _osclass "vendor" in
        let* osfamily := getitem _osclass "osfamily" in
        let* accuracy := getitem _osclass "accuracy" in
        let osgen := PStr "" in
        let type := PStr "" in
        let* osgen :=
          if contains _osclass "osgen" then getitem _osclass "osgen"
          else inr osgen in
        let* type :=
          if contains _osclass "type" then getitem _osclass "type"
          else inr type in
        match cd_cpe osclass_dict with
        | None => inl (KeyError "cpe")
        | Some cpes =>
            inr {| _vendor := vendor; _osfamily := osfamily;
                   _accuracy := accuracy; _osgen := osgen; _type := type;
                   _cpelist := append_cpes [] cpes |}
        end
  end.

Definition cpelist (self : t) : list CPE.t := _cpelist self.
Definition vendor (self : t) : pyval := _vendor self.
Definition osfamily (self : t) : pyval := _osfamily self.
Definition accuracy (self : t) : py Z := py_int (_accuracy self).
Definition osgen (self : t) : pyval := _osgen self.
Definition type (self : t) : pyval := _type self.

(** [for _cpe in self._cpelist] of [__repr__]; [str(_cpe)] is the
    [__repr__] of the CPE. *)
Fixpoint repr_cpes (rval : string) (cpelist : list CPE.t) : string :=
  match cpelist with
  | [] => rval
  | _cpe :: rest =>
      repr_cpes (rval +:+ crlf +:+ "    |__ " +:+ CPE.__repr__ _cpe) rest
  end.

Definition __repr__ (self : t) : py string :=
  let rval :=
    py_str (type self) +:+ ": " +:+ py_str (vendor self) +:+ ", " +:+
    py_str (osfamily self) in
  let* n := py_len (osgen self) in
  let rval :=
    if (n =? 0)%nat then rval
    else rval +:+ "(" +:+ py_str (osgen self) +:+ ")" in
  inr (repr_cpes rval (_cpelist self)).
End NmapOSClass.

(** ** NmapOSMatch *)

(** The argument of [NmapOSMatch]: a dictionary with the keys
    ['osmatch'] (attributes) and ['osclasses'] (nested class records). *)
Record osmatch_dict : Type := {
  md_osmatch : option (gmap string pyval);
  md_osclasses : option (list osclass_dict)
}.

(** The objects that reach [add_osclass] and [get_osmatch] as their
    argument: an integer, an [NmapOSClass] instance, a class dictionary. *)
Inductive pyobj : Type :=
| OInt (z : Z)
| OClass (c : NmapOSClass.t)
| ODict (d : osclass_dict).

(** [try: .. except KeyError: pass] around statements that update a
    state: the state reached is kept, a [KeyError] is dropped. *)
Definition except_KeyError_pass {S : Type} (r : S * option pyerr) : S * option pyerr :=
  match r with
  | (st, Some (KeyError _)) => (st, None)
  | _ => r
  end.

Module NmapOSMatch.
(** [_NmapOSMatch__osclasses] is the attribute that [self.__osclasses]
    denotes inside the class body (private-name mangling); [None] is
    "attribute not set". *)
Record t : Type := mk {
  _name : pyval;
  _line : pyval;
  _accuracy : pyval;
  _osclasses : list NmapOSClass.t;
  _NmapOSMatch__osclasses : option (list pyobj)
}.

(** The body of the [for _osclass in ..] loop, from the list on: the
    class list reached and the exception that ended the loop, if any. *)
Fixpoint append_osclasses (osclasses : list NmapOSClass.t)
    (l : list osclass_dict) : list NmapOSClass.t * option pyerr :=
  match l with
  | [] => (osclasses, None)
  | _osclass :: rest =>
      match try_except_all (NmapOSClass.__init__ _osclass)
              (Exception "Could not create NmapOSClass object") with
      | inl e => (osclasses, Some e)
      | inr _osclassobj => append_osclasses (osclasses ++ [_osclassobj]) rest
      end
  end.

Definition create_osclass_list (osmatch_dict : osmatch_dict)
    : list NmapOSClass.t * option pyerr :=
  except_KeyError_pass
    match md_osclasses osmatch_dict with
    | None => ([], Some (KeyError "osclasses"))
    | Some l => append_osclasses [] l
    end.

Definition __init__ (osmatch_dict : osmatch_dict) : py t :=
  match md_osmatch osmatch_dict with
  | None => inl (KeyError "osmatch")
  | Some _osmatch_dict =>
      if negb (contains _osmatch_dict "name")
         || negb (contains _osmatch_dict "line")
         || negb (contains _osmatch_dict "accuracy")
      then inl (Exception "Cannot create NmapOSClass: missing required key")
      else
        let* name := getitem _osmatch_dict "name" in
        let* line := getitem _osmatch_dict "line" in
        let* accuracy := getitem _osmatch_dict "accuracy" in
        match create_osclass_list osmatch_dict with
        | (_, Some e) => inl e
        | (osclasses, None) =>
            inr {| _name := name; _line := line; _accuracy := accuracy;
                   _osclasses := osclasses;
                   _NmapOSMatch__osclasses := None |}
        end
  end.

(** ['osclass' in class_dict]. *)
Definition contains_osclass (class_dict : pyobj) : py bool :=
  match class_dict with
  | ODict d => inr (bool_decide (is_Some (cd_osclass d)))
  | OClass _ => inl (TypeError "argument of type 'NmapOSClass' is not iterable")
  | OInt _ => inl (TypeError "argument of type 'int' is not iterable")
  end.

Definition add_osclass (self : t) (class_dict : pyobj) : py t :=
  let* present := contains_osclass class_dict in
  if present : bool then
    match _NmapOSMatch__osclasses self with
    | None =>
        inl (AttributeError
               "'NmapOSMatch' object has no attribute '_NmapOSMatch__osclasses'")
    | Some l =>
        inr {| _name := _name self; _line := _line self;
               _accuracy := _accuracy self; _osclasses := _osclasses self;
               _NmapOSMatch__osclasses := Some (l ++ [class_dict]) |}
    end
  else inl (Exception "Cannot add: no osclass data in provided dict").

Definition osclasses (self : t) : list NmapOSClass.t := _osclasses self.
Definition name (self : t) : pyval := _name self.
Definition line (self : t) : py Z := py_int (_line self).
Definition accuracy (self : t) : py Z := py_int (_accuracy self).

(** [for _osclass in self._osclasses] of [__repr__]; [str(_osclass)]
    is the [__repr__] of the class. *)
Fixpoint repr_osclasses (rval : string) (cs : list NmapOSClass.t) : py string :=
  match cs with
  | [] => inr rval
  | _osclass :: rest =>
      let* text := NmapOSClass.__repr__ _osclass in
      repr_osclasses (rval +:+ crlf +:+ "  |__ os class: " +:+ text) rest
  end.

Definition __repr__ (self : t) : py string :=
  let* a := accuracy self in
  let rval := py_str (name self) +:+ ": " +:+ py_str (PInt a) in
  repr_osclasses rval (_osclasses self).
End NmapOSMatch.

(** ** NmapOSFingerprint *)

(** The argument of [NmapOSFingerprint]: up to four groups. An entry of
    ['osfingerprints'] is a dictionary of text attributes; a used port is
    stored as it comes. *)
Record osfp_data : Type := {
  fd_osmatches : option (list osmatch_dict);
  fd_osclasses : option (list osclass_dict);
  fd_osfingerprints : option (list (gmap string string));
  fd_ports_used : option (list (gmap string pyval))
}.

(** [warnings.warn(message, DeprecationWarning)] under the default
    filters records the warning and goes on. *)
Inductive warning : Type :=
| DeprecationWarning (message : string).

(** Calling a list: [l(args)]. *)
Definition call_list {A B : Type} (l : list A) (args : list Z) : py B :=
  inl (TypeError "'list' object is not callable").

(** [a == o] for an integer [a]: objects of another type are unequal. *)
Definition int_eq (a : Z) (o : pyobj) : bool :=
  match o with
  | OInt z => (a =? z)%Z
  | OClass _ | ODict _ => false
  end.

Module NmapOSFingerprint.
Record t : Type := mk {
  __osmatches : list NmapOSMatch.t;
  __ports_used : list (gmap string pyval);
  __fingerprints : list string
}.

Definition set_osmatches (self : t) (ms : list NmapOSMatch.t) : t :=
  {| __osmatches := ms; __ports_used := __ports_used self;
     __fingerprints := __fingerprints self |}.

(** The loop of [get_osmatch] from position [i] on. The match found is
    returned with its position in [__osmatches], which stands for the
    reference to the stored object. *)
Fixpoint get_osmatch_from (i : nat) (ms : list NmapOSMatch.t)
    (accuracy : pyobj) : py (option (nat * NmapOSMatch.t)) :=
  match ms with
  | [] => inr None
  | _osmatch :: rest =>
      let* a := NmapOSMatch.accuracy _osmatch in
      if int_eq a accuracy then inr (Some (i, _osmatch))
      else get_osmatch_from (S i) rest accuracy
  end.

Definition get_osmatch (self : t) (accuracy : pyobj)
    : py (option (nat * NmapOSMatch.t)) :=
  get_osmatch_from 0 (__osmatches self) accuracy.

Definition _add_dummy_osmatch (self : t) (osclass_obj : NmapOSClass.t) : py t :=
  let _dname :=
    py_str (NmapOSClass.type osclass_obj) +:+ ":" +:+
    py_str (NmapOSClass.vendor osclass_obj) +:+ ":" +:+
    py_str (NmapOSClass.osfamily osclass_obj) in
  let* accuracy := NmapOSClass.accuracy osclass_obj in
  let _dummy_dict :=
    {| md_osmatch :=
         Some (<["name" := PStr _dname]>
                 (<["accuracy" := PInt accuracy]>
                    (<["line" := PInt (-1)]> ∅)));
       md_osclasses := Some [] |} in
  let* _dummy_osmatch := NmapOSMatch.__init__ _dummy_dict in
  inr (set_osmatches self (__osmatches self ++ [_dummy_osmatch])).

(** [for _osmatch in osfp_data['osmatches']]. *)
Fixpoint add_osmatches (self : t) (l : list osmatch_dict) : py t :=
  match l with
  | [] => inr self
  | _osmatch :: rest =>
      let* _osmatch_obj := NmapOSMatch.__init__ _osmatch in
      add_osmatches (set_osmatches self (__osmatches self ++ [_osmatch_obj])) rest
  end.

(** [for _osclass in osfp_data['osclasses']]. [add_osclass] acts on the
    object stored at the position [get_osmatch] found. *)
Fixpoint add_osclasses (self : t) (l : list osclass_dict) : py t :=
  match l with
  | [] => inr self
  | _osclass :: rest =>
      let* _osclass_obj := NmapOSClass.__init__ _osclass in
      let* _osmatched := get_osmatch self (OClass _osclass_obj) in
      let* self' :=
        match _osmatched with
        | Some (i, m) =>
            let* m' := NmapOSMatch.add_osclass m (OClass _osclass_obj) in
            inr (set_osmatches self (<[i := m']> (__osmatches self)))
        | None => _add_dummy_osmatch self _osclass_obj
        end in
      add_osclasses self' rest
  end.

(** [for _osfp in osfp_data['osfingerprints']]. *)
Fixpoint add_fingerprints (fingerprints : list string)
    (l : list (gmap string string)) : list string :=
  match l with
  | [] => fingerprints
  | _osfp :: rest =>
      match _osfp !! "fingerprint" with
      | Some fp => add_fingerprints (fingerprints ++ [fp]) rest
      | None => add_fingerprints fingerprints rest
      end
  end.

Definition __init__ (osfp_data : osfp_data) : py t :=
  let self := {| __osmatches := []; __ports_used := []; __fingerprints := [] |} in
  let* self :=
    match fd_osmatches osfp_data with
    | Some l => add_osmatches self l
    | None => inr self
    end in
  let* self :=
    match fd_osclasses osfp_data with
    | Some l => add_osclasses self l
    | None => inr self
    end in
  let self :=
    match fd_osfingerprints osfp_data with
    | Some l =>
        {| __osmatches := __osmatches self; __ports_used := __ports_used self;
           __fingerprints := add_fingerprints (__fingerprints self) l |}
    | None => self
    end in
  let self :=
    match fd_ports_used osfp_data with
    | Some ports =>
        {| __osmatches := __osmatches self; __ports_used := ports;
           __fingerprints := __fingerprints self |}
    | None => self
    end in
  inr self.

(** The function under the [osmatches] property,
    [def osmatches(self, min_accuracy=0)]. *)
Fixpoint osmatches_loop (_osmatches : list NmapOSMatch.t)
    (ms : list NmapOSMatch.t) (min_accuracy : Z) : py (list NmapOSMatch.t) :=
  match ms with
  | [] => inr _osmatches
  | _osmatch :: rest =>
      let* a := NmapOSMatch.accuracy _osmatch in
      if (a >=? min_accuracy)%Z
      then osmatches_loop (_osmatches ++ [_osmatch]) rest min_accuracy
      else osmatches_loop _osmatches rest min_accuracy
  end.

Definition osmatches_fget (self : t) (min_accuracy : Z) : py (list NmapOSMatch.t) :=
  osmatches_loop [] (__osmatches self) min_accuracy.

(** [self.osmatches]: [osmatches] is a property, so reading the
    attribute calls the function above with [self] alone and
    [min_accuracy] takes its default. *)
Definition osmatches (self : t) : py (list NmapOSMatch.t) :=
  osmatches_fget self 0.

(** [self.osmatches(args)]: the attribute is read, then its value is
    called. *)
Definition osmatches_call (self : t) (args : list Z) : py (list NmapOSMatch.t) :=
  let* value := osmatches self in
  call_list value args.

Definition fingerprint (self : t) : string :=
  String.concat crlf (__fingerprints self).

Definition fingerprints (self : t) : list string := __fingerprints self.

Fixpoint osmatch_loop (os_array : list pyval) (ms : list NmapOSMatch.t)
    (min_accuracy : Z) : py (list pyval) :=
  match ms with
  | [] => inr os_array
  | _osmatch :: rest =>
      let* a := NmapOSMatch.accuracy _osmatch in
      if (a >=? min_accuracy)%Z
      then osmatch_loop (os_array ++ [NmapOSMatch.name _osmatch]) rest min_accuracy
      else osmatch_loop os_array rest min_accuracy
  end.

Definition osmatch (self : t) (min_accuracy : Z) : list warning * py (list pyval) :=
  ([DeprecationWarning
      "NmapOSFingerprint.osmatch is deprecated: use NmapOSFingerprint.osmatches"],
   osmatch_loop [] (__osmatches self) min_accuracy).

(** [for oclass in osmatch_entry.osclasses]. *)
Fixpoint osclass_inner (os_array : list string) (cs : list NmapOSClass.t)
    : list string :=
  match cs with
  | [] => os_array
  | oclass :: rest =>
      let _ftstr :=
        "type:" +:+ py_str (NmapOSClass.type oclass) +:+
        "|vendor:" +:+ py_str (NmapOSClass.vendor oclass) +:+
        "|osfamily" +:+ py_str (NmapOSClass.osfamily oclass) in
      osclass_inner (os_array ++ [_ftstr]) rest
  end.

(** [for osmatch_entry in ..]. *)
Fixpoint osclass_loop (os_array : list string) (ms : list NmapOSMatch.t)
    (min_accuracy : Z) : py (list string) :=
  match ms with
  | [] => inr os_array
  | osmatch_entry :: rest =>
      let* a := NmapOSMatch.accuracy osmatch_entry in
      if (a >=? min_accuracy)%Z
      then osclass_loop
             (osclass_inner os_array (NmapOSMatch.osclasses osmatch_entry))
             rest min_accuracy
      else osclass_loop os_array rest min_accuracy
  end.

Definition osclass (self : t) (min_accuracy : Z) : list warning * py (list string) :=
  ([DeprecationWarning
      "NmapOSFingerprint.osclass() is deprecated: use NmapOSFingerprint.osclasses() if applicable"],
   let* entries := osmatches_call self [] in
   osclass_loop [] entries min_accuracy).

(** [for _osmatch in self.osmatches] of [__repr__]; formatting a match
    with [{0}] gives its [__repr__]. *)
Fixpoint repr_osmatches (rval : string) (ms : list NmapOSMatch.t) : py string :=
  match ms with
  | [] => inr rval
  | _osmatch :: rest =>
      let* text := NmapOSMatch.__repr__ _osmatch in
      repr_osmatches (rval +:+ crlf +:+ text) rest
  end.

Definition __repr__ (self : t) : py string :=
  let* ms := osmatches self in
  let* rval := repr_osmatches "" ms in
  inr (rval +:+ format_no_field "Fingerprints: " [fingerprint self]).
End NmapOSFingerprint.

(** ** Vocabulary of the statements *)

(** A computation raises. *)
Definition raises {A : Type} (c : py A) : Prop := exists e, c = inl e.

(** The keys the two constructors insist on. *)
Definition class_required : list string := ["vendor"; "osfamily"; "accuracy"].
Definition match_required : list string := ["name"; "line"; "accuracy"].

Definition omits_one_of (required : list string) (attrs : gmap string pyval) : Prop :=
  exists k, k ∈ required /\ attrs !! k = None.

Definition has_all_of (required : list string) (attrs : gmap string pyval) : Prop :=
  forall k, k ∈ required -> is_Some (attrs !! k).

(** [cd] is a class dictionary from which [NmapOSClass] builds [c]. *)
Definition constructs (cd : osclass_dict) (c : NmapOSClass.t) : Prop :=
  NmapOSClass.__init__ cd = inr c.

(** The error a nested class record that cannot be built turns into. *)
Definition nested_class_error : pyerr :=
  Exception "Could not create NmapOSClass object".

(** The class records nested in a match record: those under its
    ['osclasses'] key, none when the key is missing. *)
Definition nested (md : osmatch_dict) : list osclass_dict :=
  default [] (md_osclasses md).

(** [md] is a match dictionary from which [NmapOSMatch] builds [m]. *)
Definition builds (md : osmatch_dict) (m : NmapOSMatch.t) : Prop :=
  NmapOSMatch.__init__ md = inr m.

(** The name [_add_dummy_osmatch] derives from a class. *)
Definition dummy_name (c : NmapOSClass.t) : string :=
  py_str (NmapOSClass.type c) +:+ ":" +:+
  py_str (NmapOSClass.vendor c) +:+ ":" +:+
  py_str (NmapOSClass.osfamily c).

(** The match object [_add_dummy_osmatch] stores for a class of
    accuracy [a]. *)
Definition dummy_osmatch (c : NmapOSClass.t) (a : Z) : NmapOSMatch.t :=
  {| NmapOSMatch._name := PStr (dummy_name c);
     NmapOSMatch._line := PInt (-1);
     NmapOSMatch._accuracy := PInt a;
     NmapOSMatch._osclasses := [];
     NmapOSMatch._NmapOSMatch__osclasses := None |}.

(** [m] is the placeholder stored for the orphan class record [cd]. *)
Definition placeholder_for (cd : osclass_dict) (m : NmapOSMatch.t) : Prop :=
  exists c a, constructs cd c /\ NmapOSClass.accuracy c = inr a /\
              m = dummy_osmatch c a.

(** The ['fingerprint'] entries of an ['osfingerprints'] group. *)
Definition fingerprint_fields (l : list (gmap string string)) : list string :=
  omap (fun _osfp : gmap string string => _osfp !! "fingerprint") l.

(** The reconciler before its first loop. *)
Definition fresh : NmapOSFingerprint.t :=
  {| NmapOSFingerprint.__osmatches := [];
     NmapOSFingerprint.__ports_used := [];
     NmapOSFingerprint.__fingerprints := [] |}.

(** A constructor fails with the error kind of the explicit
    [raise Exception(..)] statements (the specification's
    ValidationError). *)
Definition is_ValidationError {A : Type} (c : py A) : Prop :=
  exists msg, c = inl (Exception msg).

(** A required attribute is missing from the match record or from one
    of the class records nested in it. *)
Definition required_field_absent (md : osmatch_dict) : Prop :=
  (exists attrs, md_osmatch md = Some attrs /\ omits_one_of match_required attrs) \/
  (exists cd attrs, cd ∈ nested md /\ cd_osclass cd = Some attrs /\
                    omits_one_of class_required attrs).

(** [osfp_data] with its ['osfingerprints'] group replaced. *)
Definition with_osfingerprints (d : osfp_data)
    (g : option (list (gmap string string))) : osfp_data :=
  {| fd_osmatches := fd_osmatches d; fd_osclasses := fd_osclasses d;
     fd_osfingerprints := g; fd_ports_used := fd_ports_used d |}.

(** The stored accuracy of [m] is an integer not below [x]. *)
Definition accuracy_at_least (x : Z) (m : NmapOSMatch.t) : bool :=
  match NmapOSMatch.accuracy m with
  | inr a => (a >=? x)%Z
  | inl _ => false
  end.

(** ** Sample reports *)

Definition linux_3x_attrs : gmap string pyval :=
  <["name" := PStr "Linux 3.x"]>
    (<["line" := PInt 12]> (<["accuracy" := PInt 95]> ∅)).

Definition linux_attrs : gmap string pyval :=
  <["vendor" := PStr "Linux"]>
    (<["osfamily" := PStr "Linux"]>
       (<["accuracy" := PInt 95]> (<["type" := PStr "general purpose"]> ∅))).

Definition cisco_attrs : gmap string pyval :=
  <["vendor" := PStr "Cisco"]>
    (<["osfamily" := PStr "IOS"]>
       (<["accuracy" := PInt 70]> (<["type" := PStr "router"]> ∅))).

Definition linux_3x : osmatch_dict :=
  {| md_osmatch := Some linux_3x_attrs; md_osclasses := None |}.

Definition linux_class : osclass_dict :=
  {| cd_osclass := Some linux_attrs; cd_cpe := Some [] |}.

Definition cisco_class : osclass_dict :=
  {| cd_osclass := Some cisco_attrs; cd_cpe := Some [] |}.

(** One match of accuracy 95 and one orphan class of accuracy 95. *)
Definition report_same_accuracy : osfp_data :=
  {| fd_osmatches := Some [linux_3x]; fd_osclasses := Some [linux_class];
     fd_osfingerprints := None; fd_ports_used := None |}.

(** One match of accuracy 95 and one orphan class of accuracy 70. *)
Definition report_other_accuracy : osfp_data :=
  {| fd_osmatches := Some [linux_3x]; fd_osclasses := Some [cisco_class];
     fd_osfingerprints := None; fd_ports_used := None |}.

Definition linux_3x_obj : NmapOSMatch.t :=
  {| NmapOSMatch._name := PStr "Linux 3.x"; NmapOSMatch._line := PInt 12;
     NmapOSMatch._accuracy := PInt 95; NmapOSMatch._osclasses := [];
     NmapOSMatch._NmapOSMatch__osclasses := None |}.

Definition linux_class_obj : NmapOSClass.t :=
  {| NmapOSClass._vendor := PStr "Linux"; NmapOSClass._osfamily := PStr "Linux";
     NmapOSClass._accuracy := PInt 95; NmapOSClass._osgen := PStr "";
     NmapOSClass._type := PStr "general purpose"; NmapOSClass._cpelist := [] |}.

Definition cisco_class_obj : NmapOSClass.t :=
  {| NmapOSClass._vendor := PStr "Cisco"; NmapOSClass._osfamily := PStr "IOS";
     NmapOSClass._accuracy := PInt 70; NmapOSClass._osgen := PStr "";
     NmapOSClass._type := PStr "router"; NmapOSClass._cpelist := [] |}.

(** A class record complete but for its ['cpe'] key, alone and nested
    in a complete match record. *)
Definition linux_class_no_cpe : osclass_dict :=
  {| cd_osclass := Some linux_attrs; cd_cpe := None |}.

Definition linux_3x_nesting_no_cpe : osmatch_dict :=
  {| md_osmatch := Some linux_3x_attrs;
     md_osclasses := Some [linux_class_no_cpe] |}.

(** A class record without vendor. *)
Definition class_no_vendor : osclass_dict :=
  {| cd_osclass := Some (delete "vendor" linux_attrs); cd_cpe := Some [] |}.

(** A class record without generation and type. *)
Definition class_bare : osclass_dict :=
  {| cd_osclass := Some (delete "type" linux_attrs); cd_cpe := Some [] |}.

(** The match of accuracy 95 with the class of accuracy 95 nested. *)
Definition linux_3x_nesting : osmatch_dict :=
  {| md_osmatch := Some linux_3x_attrs; md_osclasses := Some [linux_class] |}.

Definition report_nested : osfp_data :=
  {| fd_osmatches := Some [linux_3x_nesting]; fd_osclasses := Some [cisco_class];
     fd_osfingerprints :=
       Some [ {["fingerprint" := "OS:Linux"]}; ∅; {["fingerprint" := "OPS(...)"]} ];
     fd_ports_used := None |}.

(** The reconciler built from [report_other_accuracy]. *)
Definition two_matches : NmapOSFingerprint.t :=
  {| NmapOSFingerprint.__osmatches :=
       [linux_3x_obj; dummy_osmatch cisco_class_obj 70];
     NmapOSFingerprint.__ports_used := [];
     NmapOSFingerprint.__fingerprints := [] |}.

(** The reconciler built from [report_nested]. *)
Definition nested_reconciler : NmapOSFingerprint.t :=
  {| NmapOSFingerprint.__osmatches :=
       [ {| NmapOSMatch._name := PStr "Linux 3.x"; NmapOSMatch._line := PInt 12;
            NmapOSMatch._accuracy := PInt 95;
            NmapOSMatch._osclasses := [linux_class_obj];
            NmapOSMatch._NmapOSMatch__osclasses := None |};
         dummy_osmatch cisco_class_obj 70 ];
     NmapOSFingerprint.__ports_used := [];
     NmapOSFingerprint.__fingerprints := ["OS:Linux"; "OPS(...)"] |}.

(** ** Vocabulary of the further properties *)

(** The accuracy accessor of [m] returns. *)
Definition has_int_accuracy (m : NmapOSMatch.t) : Prop :=
  exists a, NmapOSMatch.accuracy m = inr a.

(** [cd] builds a class object whose accuracy accessor returns. *)
Definition constructs_with_accuracy (cd : osclass_dict) : Prop :=
  exists c a, constructs cd c /\ NmapOSClass.accuracy c = inr a.

(** The keys [NmapOSClass] reads in the attributes of a class record. *)
Definition class_keys : list string :=
  ["vendor"; "osfamily"; "accuracy"; "osgen"; "type"].

(** What [NmapOSClass.__repr__] adds for a CPE, what
    [NmapOSMatch.__repr__] adds for the text of a class and what
    [NmapOSFingerprint.__repr__] adds for the text of a match. *)
Definition cpe_line (cpe : CPE.t) : string :=
  crlf +:+ "    |__ " +:+ CPE.cpestring cpe.

Definition osclass_line (text : string) : string :=
  crlf +:+ "  |__ os class: " +:+ text.

Definition osmatch_line (text : string) : string := crlf +:+ text.

(** The first line of the text of a class. *)
Definition class_header (c : NmapOSClass.t) : string :=
  py_str (NmapOSClass.type c) +:+ ": " +:+ py_str (NmapOSClass.vendor c) +:+
  ", " +:+ py_str (NmapOSClass.osfamily c).

(** [texts] are the texts of the classes [cs], and of the matches [ms]. *)
Definition class_texts (cs : list NmapOSClass.t) (texts : list string) : Prop :=
  Forall2 (fun c text => NmapOSClass.__repr__ c = inr text) cs texts.

Definition match_texts (ms : list NmapOSMatch.t) (texts : list string) : Prop :=
  Forall2 (fun m text => NmapOSMatch.__repr__ m = inr text) ms texts.

(** [osfp_data] with its ['osclasses'] and its ['ports_used'] group
    replaced. *)
Definition with_osclasses (d : osfp_data) (g : option (list osclass_dict))
    : osfp_data :=
  {| fd_osmatches := fd_osmatches d; fd_osclasses := g;
     fd_osfingerprints := fd_osfingerprints d;
     fd_ports_used := fd_ports_used d |}.

Definition with_ports_used (d : osfp_data)
    (g : option (list (gmap string pyval))) : osfp_data :=
  {| fd_osmatches := fd_osmatches d; fd_osclasses := fd_osclasses d;
     fd_osfingerprints := fd_osfingerprints d; fd_ports_used := g |}.

(** The texts of [l] one after the other. *)
Definition glue (l : list string) : string := foldr String.append "" l.

(** The generation of a class as its text shows it. *)
Definition generation_suffix (gen : string) : string :=
  match gen with
  | EmptyString => ""
  | _ => "(" +:+ gen +:+ ")"
  end.

(** ** Further sample reports *)

(** A match record whose accuracy is not a number. *)
Definition vague_attrs : gmap string pyval :=
  <["name" := PStr "Unknown"]>
    (<["line" := PInt 3]> (<["accuracy" := PStr "high"]> ∅)).

Definition vague_match : osmatch_dict :=
  {| md_osmatch := Some vague_attrs; md_osclasses := None |}.

Definition vague_obj : NmapOSMatch.t :=
  {| NmapOSMatch._name := PStr "Unknown"; NmapOSMatch._line := PInt 3;
     NmapOSMatch._accuracy := PStr "high"; NmapOSMatch._osclasses := [];
     NmapOSMatch._NmapOSMatch__osclasses := None |}.

(** A match record without name. *)
Definition nameless_match : osmatch_dict :=
  {| md_osmatch := Some (delete "name" linux_3x_attrs); md_osclasses := None |}.

(** A class object with a generation and two CPE. *)
Definition linux_26_obj : NmapOSClass.t :=
  {| NmapOSClass._vendor := PStr "Linux"; NmapOSClass._osfamily := PStr "Linux";
     NmapOSClass._accuracy := PInt 95; NmapOSClass._osgen := PStr "2.6.X";
     NmapOSClass._type := PStr "general purpose";
     NmapOSClass._cpelist :=
       [CPE.__init__ "cpe:/o:linux:kernel:2.6"; CPE.__init__ "cpe:/o:linux"] |}.

(** A match object whose accuracy is a text, holding one class. *)
Definition linux_26_match_obj : NmapOSMatch.t :=
  {| NmapOSMatch._name := PStr "Linux 2.6"; NmapOSMatch._line := PInt 7;
     NmapOSMatch._accuracy := PStr "95";
     NmapOSMatch._osclasses := [linux_class_obj];
     NmapOSMatch._NmapOSMatch__osclasses := None |}.

(** A reconciler holding a match of negative accuracy. *)
Definition negative_obj : NmapOSMatch.t :=
  {| NmapOSMatch._name := PStr "Odd"; NmapOSMatch._line := PInt 4;
     NmapOSMatch._accuracy := PStr "-1"; NmapOSMatch._osclasses := [];
     NmapOSMatch._NmapOSMatch__osclasses := None |}.

Definition with_negative : NmapOSFingerprint.t :=
  {| NmapOSFingerprint.__osmatches := [linux_3x_obj; negative_obj];
     NmapOSFingerprint.__ports_used := [];
     NmapOSFingerprint.__fingerprints := [] |}.

(** A report with an orphan class record and no other group, and a
    report with a match record without name and no other group. *)
Definition report_only_class : osfp_data :=
  {| fd_osmatches := None; fd_osclasses := Some [cisco_class];
     fd_osfingerprints := None; fd_ports_used := None |}.

Definition report_only_nameless : osfp_data :=
  {| fd_osmatches := Some [nameless_match]; fd_osclasses := None;
     fd_osfingerprints := None; fd_ports_used := None |}.

(** * Properties *)

(** ** The error monad *)

Lemma py_bind_inr {A B : Type} (c : py A) (k : A -> py B) (b : B) :
  py_bind c k = inr b <-> exists a, c = inr a /\ k a = inr b.
Proof.
  destruct c as [e|a]; simpl; split.
  - discriminate.
  - intros (a & Ha & _). discriminate.
  - eauto.
  - intros (a' & Ha & Hk). congruence.
Qed.

Lemma raises_or_returns {A : Type} (c : py A) : raises c \/ exists a, c = inr a.
Proof. destruct c as [e|a]; [left|right]; eexists; reflexivity. Qed.

Lemma raises_not_inr {A : Type} (c : py A) (a : A) : raises c -> c <> inr a.
Proof. intros [e ->]. discriminate. Qed.

Lemma contains_true (d : gmap string pyval) (k : string) :
  contains d k = true <-> is_Some (d !! k).
Proof. unfold contains. apply bool_decide_eq_true. Qed.

Lemma contains_false (d : gmap string pyval) (k : string) :
  contains d k = false <-> d !! k = None.
Proof.
  unfold contains. rewrite bool_decide_eq_false, <- eq_None_not_Some. reflexivity.
Qed.

Lemma getitem_Some (d : gmap string pyval) (k : string) (v : pyval) :
  d !! k = Some v -> getitem d k = inr v.
Proof. unfold getitem. intros ->. reflexivity. Qed.

(** ** NmapOSClass *)

Lemma append_cpes_map (acc : list CPE.t) (cpes : list string) :
  NmapOSClass.append_cpes acc cpes = acc ++ map CPE.__init__ cpes.
Proof.
  revert acc. induction cpes as [|x cpes IH]; intros acc; simpl.
  - rewrite app_nil_r. reflexivity.
  - rewrite IH, <- app_assoc. reflexivity.
Qed.

Lemma omits_or_has_all (required : list string) (attrs : gmap string pyval) :
  omits_one_of required attrs \/ has_all_of required attrs.
Proof.
  induction required as [|k required IH].
  - right. intros k Hk. inversion Hk.
  - destruct (attrs !! k) as [v|] eqn:Hk.
    + destruct IH as [(k' & Hin & Hnone)|Hall].
      * left. exists k'. split; [right; exact Hin | exact Hnone].
      * right. intros k' Hin. apply elem_of_cons in Hin as [->|Hin].
        -- rewrite Hk. eauto.
        -- apply Hall, Hin.
    + left. exists k. split; [left | exact Hk].
Qed.

Lemma omits_not_has_all (required : list string) (attrs : gmap string pyval) :
  omits_one_of required attrs -> has_all_of required attrs -> False.
Proof.
  intros (k & Hin & Hnone) Hall. destruct (Hall k Hin) as [v Hv]. congruence.
Qed.

Lemma class_guard_true (attrs : gmap string pyval) :
  negb (contains attrs "vendor") || negb (contains attrs "osfamily")
    || negb (contains attrs "accuracy") = true
  <-> omits_one_of class_required attrs.
Proof.
  rewrite !orb_true_iff, !negb_true_iff, !contains_false. split.
  - intros [[H|H]|H]; eexists; (split; [|exact H]); unfold class_required;
      set_solver.
  - intros (k & Hin & Hnone). unfold class_required in Hin.
    repeat (apply elem_of_cons in Hin as [->|Hin]); [tauto..|inversion Hin].
Qed.

Lemma match_guard_true (attrs : gmap string pyval) :
  negb (contains attrs "name") || negb (contains attrs "line")
    || negb (contains attrs "accuracy") = true
  <-> omits_one_of match_required attrs.
Proof.
  rewrite !orb_true_iff, !negb_true_iff, !contains_false. split.
  - intros [[H|H]|H]; eexists; (split; [|exact H]); unfold match_required;
      set_solver.
  - intros (k & Hin & Hnone). unfold match_required in Hin.
    repeat (apply elem_of_cons in Hin as [->|Hin]); [tauto..|inversion Hin].
Qed.

(** What [NmapOSClass] returns on a dictionary that has its three
    required attributes and its ['cpe'] list. *)
Lemma NmapOSClass_init_ok (cd : osclass_dict) (attrs : gmap string pyval)
    (cpes : list string) (vendor osfamily accuracy : pyval) :
  cd_osclass cd = Some attrs -> cd_cpe cd = Some cpes ->
  attrs !! "vendor" = Some vendor -> attrs !! "osfamily" = Some osfamily ->
  attrs !! "accuracy" = Some accuracy ->
  NmapOSClass.__init__ cd =
    inr {| NmapOSClass._vendor := vendor; NmapOSClass._osfamily := osfamily;
           NmapOSClass._accuracy := accuracy;
           NmapOSClass._osgen := default (PStr "") (attrs !! "osgen");
           NmapOSClass._type := default (PStr "") (attrs !! "type");
           NmapOSClass._cpelist := map CPE.__init__ cpes |}.
Proof.
  intros Hattrs Hcpe Hv Hf Ha. unfold NmapOSClass.__init__.
  rewrite Hattrs, Hcpe.
  assert (Hg : negb (contains attrs "vendor") || negb (contains attrs "osfamily")
               || negb (contains attrs "accuracy") = false).
  { apply not_true_iff_false. rewrite class_guard_true.
    intros (k & Hin & Hnone). unfold class_required in Hin.
    repeat (apply elem_of_cons in Hin as [->|Hin]); [congruence..|inversion Hin]. }
  rewrite Hg.
  rewrite (getitem_Some _ _ _ Hv), (getitem_Some _ _ _ Hf), (getitem_Some _ _ _ Ha).
  simpl. rewrite append_cpes_map. simpl.
  unfold contains, getitem.
  destruct (attrs !! "osgen") as [g|], (attrs !! "type") as [ty|]; reflexivity.
Qed.

(** The three outcomes of [NmapOSClass] that raise. *)
Lemma NmapOSClass_init_no_osclass (cd : osclass_dict) :
  cd_osclass cd = None -> NmapOSClass.__init__ cd = inl (KeyError "osclass").
Proof. unfold NmapOSClass.__init__. intros ->. reflexivity. Qed.

Lemma NmapOSClass_init_omits (cd : osclass_dict) (attrs : gmap string pyval) :
  cd_osclass cd = Some attrs -> omits_one_of class_required attrs ->
  NmapOSClass.__init__ cd =
    inl (Exception "Wrong osclass structure: missing required key").
Proof.
  intros Hattrs Homit. unfold NmapOSClass.__init__. rewrite Hattrs.
  apply class_guard_true in Homit. rewrite Homit. reflexivity.
Qed.

Lemma NmapOSClass_init_no_cpe (cd : osclass_dict) (attrs : gmap string pyval) :
  cd_osclass cd = Some attrs -> has_all_of class_required attrs ->
  cd_cpe cd = None -> NmapOSClass.__init__ cd = inl (KeyError "cpe").
Proof.
  intros Hattrs Hall Hcpe. unfold NmapOSClass.__init__. rewrite Hattrs, Hcpe.
  assert (Hg : negb (contains attrs "vendor") || negb (contains attrs "osfamily")
               || negb (contains attrs "accuracy") = false).
  { apply not_true_iff_false. rewrite class_guard_true.
    intros Homit. exact (omits_not_has_all _ _ Homit Hall). }
  rewrite Hg.
  destruct (Hall "vendor") as [v Hv]; [unfold class_required; set_solver|].
  destruct (Hall "osfamily") as [f Hf]; [unfold class_required; set_solver|].
  destruct (Hall "accuracy") as [a Ha]; [unfold class_required; set_solver|].
  rewrite (getitem_Some _ _ _ Hv), (getitem_Some _ _ _ Hf), (getitem_Some _ _ _ Ha).
  simpl. unfold contains, getitem.
  destruct (attrs !! "osgen") as [g|], (attrs !! "type") as [ty|]; reflexivity.
Qed.

(** ** NmapOSMatch *)

Lemma append_osclasses_ok (acc : list NmapOSClass.t) (l : list osclass_dict)
    (cs : list NmapOSClass.t) :
  Forall2 constructs l cs ->
  NmapOSMatch.append_osclasses acc l = (acc ++ cs, None).
Proof.
  intros H. revert acc. induction H as [|cd c l cs Hc _ IH]; intros acc; simpl.
  - rewrite app_nil_r. reflexivity.
  - unfold constructs in Hc. rewrite Hc. simpl.
    rewrite IH, <- app_assoc. reflexivity.
Qed.

Lemma append_osclasses_raises (acc : list NmapOSClass.t) (l : list osclass_dict)
    (cd : osclass_dict) :
  cd ∈ l -> raises (NmapOSClass.__init__ cd) ->
  exists acc', NmapOSMatch.append_osclasses acc l = (acc', Some nested_class_error).
Proof.
  intros Hin Hr. revert acc.
  induction l as [|x l IH]; intros acc; [inversion Hin|].
  simpl. destruct (NmapOSClass.__init__ x) as [e|c] eqn:Hx; simpl.
  - eexists. reflexivity.
  - apply elem_of_cons in Hin as [->|Hin].
    + destruct Hr as [e He]. congruence.
    + apply IH, Hin.
Qed.

Lemma append_osclasses_inv (acc : list NmapOSClass.t) (l : list osclass_dict)
    (acc' : list NmapOSClass.t) (r : option pyerr) :
  NmapOSMatch.append_osclasses acc l = (acc', r) ->
  match r with
  | None => exists cs, Forall2 constructs l cs /\ acc' = acc ++ cs
  | Some e =>
      e = nested_class_error /\
      exists cd, cd ∈ l /\ raises (NmapOSClass.__init__ cd)
  end.
Proof.
  revert acc. induction l as [|x l IH]; intros acc; simpl.
  - intros [= <- <-]. exists []. split; [constructor|]. rewrite app_nil_r.
    reflexivity.
  - destruct (NmapOSClass.__init__ x) as [e|c] eqn:Hx; simpl.
    + intros [= <- <-]. split; [reflexivity|]. exists x. split; [left|].
      exists e. exact Hx.
    + intros H. apply IH in H. destruct r as [e|].
      * destruct H as (He & cd & Hin & Hr). split; [exact He|].
        exists cd. split; [right; exact Hin | exact Hr].
      * destruct H as (cs & Hcs & ->). exists (c :: cs). split.
        -- constructor; [exact Hx | exact Hcs].
        -- rewrite <- app_assoc. reflexivity.
Qed.

Lemma create_osclass_list_eq (md : osmatch_dict) :
  NmapOSMatch.create_osclass_list md = NmapOSMatch.append_osclasses [] (nested md).
Proof.
  unfold NmapOSMatch.create_osclass_list, nested.
  destruct (md_osclasses md) as [l|]; simpl; [|reflexivity].
  destruct (NmapOSMatch.append_osclasses [] l) as [acc' [e|]] eqn:H;
    [|reflexivity].
  apply append_osclasses_inv in H as [-> _]. reflexivity.
Qed.

Lemma NmapOSMatch_init_no_osmatch (md : osmatch_dict) :
  md_osmatch md = None -> NmapOSMatch.__init__ md = inl (KeyError "osmatch").
Proof. unfold NmapOSMatch.__init__. intros ->. reflexivity. Qed.

Lemma NmapOSMatch_init_omits (md : osmatch_dict) (attrs : gmap string pyval) :
  md_osmatch md = Some attrs -> omits_one_of match_required attrs ->
  NmapOSMatch.__init__ md =
    inl (Exception "Cannot create NmapOSClass: missing required key").
Proof.
  intros Hattrs Homit. unfold NmapOSMatch.__init__. rewrite Hattrs.
  apply match_guard_true in Homit. rewrite Homit. reflexivity.
Qed.

(** With the three required attributes present, the outcome is that of
    the loop over the nested class records. *)
Lemma NmapOSMatch_init_has_all (md : osmatch_dict) (attrs : gmap string pyval) :
  md_osmatch md = Some attrs -> has_all_of match_required attrs ->
  exists name line accuracy,
    attrs !! "name" = Some name /\ attrs !! "line" = Some line /\
    attrs !! "accuracy" = Some accuracy /\
    NmapOSMatch.__init__ md =
      match NmapOSMatch.append_osclasses [] (nested md) with
      | (_, Some e) => inl e
      | (osclasses, None) =>
          inr {| NmapOSMatch._name := name; NmapOSMatch._line := line;
                 NmapOSMatch._accuracy := accuracy;
                 NmapOSMatch._osclasses := osclasses;
                 NmapOSMatch._NmapOSMatch__osclasses := None |}
      end.
Proof.
  intros Hattrs Hall.
  destruct (Hall "name") as [n Hn]; [unfold match_required; set_solver|].
  destruct (Hall "line") as [l Hl]; [unfold match_required; set_solver|].
  destruct (Hall "accuracy") as [a Ha]; [unfold match_required; set_solver|].
  exists n, l, a. repeat split; try assumption.
  unfold NmapOSMatch.__init__. rewrite Hattrs.
  assert (Hg : negb (contains attrs "name") || negb (contains attrs "line")
               || negb (contains attrs "accuracy") = false).
  { apply not_true_iff_false. rewrite match_guard_true.
    intros Homit. exact (omits_not_has_all _ _ Homit Hall). }
  rewrite Hg.
  rewrite (getitem_Some _ _ _ Hn), (getitem_Some _ _ _ Hl), (getitem_Some _ _ _ Ha).
  simpl. rewrite create_osclass_list_eq. reflexivity.
Qed.

Lemma NmapOSMatch_init_nested_raises (md : osmatch_dict)
    (attrs : gmap string pyval) (cd : osclass_dict) :
  md_osmatch md = Some attrs -> has_all_of match_required attrs ->
  cd ∈ nested md -> raises (NmapOSClass.__init__ cd) ->
  NmapOSMatch.__init__ md = inl nested_class_error.
Proof.
  intros Hattrs Hall Hin Hr.
  destruct (NmapOSMatch_init_has_all md attrs Hattrs Hall)
    as (n & l & a & _ & _ & _ & ->).
  destruct (append_osclasses_raises [] _ _ Hin Hr) as [acc' ->]. reflexivity.
Qed.

(** What a successful [NmapOSMatch] construction returns. *)
Lemma NmapOSMatch_init_inv (md : osmatch_dict) (m : NmapOSMatch.t) :
  NmapOSMatch.__init__ md = inr m ->
  exists attrs,
    md_osmatch md = Some attrs /\
    attrs !! "name" = Some (NmapOSMatch._name m) /\
    attrs !! "line" = Some (NmapOSMatch._line m) /\
    attrs !! "accuracy" = Some (NmapOSMatch._accuracy m) /\
    Forall2 constructs (nested md) (NmapOSMatch._osclasses m) /\
    NmapOSMatch._NmapOSMatch__osclasses m = None.
Proof.
  intros H. destruct (md_osmatch md) as [attrs|] eqn:Hattrs.
  2:{ rewrite (NmapOSMatch_init_no_osmatch md Hattrs) in H. discriminate. }
  destruct (omits_or_has_all match_required attrs) as [Homit|Hall].
  { rewrite (NmapOSMatch_init_omits md attrs Hattrs Homit) in H. discriminate. }
  destruct (NmapOSMatch_init_has_all md attrs Hattrs Hall)
    as (n & l & a & Hn & Hl & Ha & Heq).
  rewrite Heq in H.
  destruct (NmapOSMatch.append_osclasses [] (nested md)) as [acc' [e|]] eqn:Hloop;
    [discriminate|].
  apply append_osclasses_inv in Hloop as (cs & Hcs & ->).
  injection H as <-. exists attrs. simpl. repeat split; assumption.
Qed.

Lemma NmapOSMatch_init_ok (md : osmatch_dict) (attrs : gmap string pyval)
    (name line accuracy : pyval) (cs : list NmapOSClass.t) :
  md_osmatch md = Some attrs ->
  attrs !! "name" = Some name -> attrs !! "line" = Some line ->
  attrs !! "accuracy" = Some accuracy ->
  Forall2 constructs (nested md) cs ->
  NmapOSMatch.__init__ md =
    inr {| NmapOSMatch._name := name; NmapOSMatch._line := line;
           NmapOSMatch._accuracy := accuracy; NmapOSMatch._osclasses := cs;
           NmapOSMatch._NmapOSMatch__osclasses := None |}.
Proof.
  intros Hattrs Hn Hl Ha Hcs.
  assert (Hall : has_all_of match_required attrs).
  { intros k Hin. unfold match_required in Hin.
    repeat (apply elem_of_cons in Hin as [->|Hin]); [eauto..|inversion Hin]. }
  destruct (NmapOSMatch_init_has_all md attrs Hattrs Hall)
    as (n & l & a & Hn' & Hl' & Ha' & ->).
  rewrite (append_osclasses_ok [] _ _ Hcs). simpl. congruence.
Qed.

(** ** NmapOSFingerprint *)

(** [get_osmatch] compares each stored accuracy, an integer, with its
    argument: given an [NmapOSClass] object it finds nothing. *)
Lemma get_osmatch_from_object (i : nat) (ms : list NmapOSMatch.t)
    (c : NmapOSClass.t) (r : option (nat * NmapOSMatch.t)) :
  NmapOSFingerprint.get_osmatch_from i ms (OClass c) = inr r -> r = None.
Proof.
  revert i. induction ms as [|m ms IH]; intros i; simpl.
  - congruence.
  - destruct (NmapOSMatch.accuracy m) as [e|a]; simpl; [discriminate|].
    apply IH.
Qed.

(** Given an integer it finds the first stored match of that accuracy. *)
Lemma get_osmatch_from_integer (i : nat) (ms : list NmapOSMatch.t) (z : Z)
    (r : option (nat * NmapOSMatch.t)) :
  NmapOSFingerprint.get_osmatch_from i ms (OInt z) = inr r ->
  match r with
  | Some (j, m) =>
      exists k, j = (i + k)%nat /\ ms !! k = Some m /\
        NmapOSMatch.accuracy m = inr z /\
        forall k' m', (k' < k)%nat -> ms !! k' = Some m' ->
          exists a, NmapOSMatch.accuracy m' = inr a /\ a <> z
  | None =>
      forall m, m ∈ ms -> exists a, NmapOSMatch.accuracy m = inr a /\ a <> z
  end.
Proof.
  revert i. induction ms as [|m ms IH]; intros i; simpl.
  - intros [= <-]. intros m Hm. inversion Hm.
  - destruct (NmapOSMatch.accuracy m) as [e|a] eqn:Ha; simpl; [discriminate|].
    destruct (Z.eqb_spec a z) as [->|Hne].
    + intros [= <-]. exists 0%nat. repeat split.
      * lia.
      * exact Ha.
      * intros k' m' Hk. lia.
    + intros H. apply IH in H. destruct r as [[j m0]|].
      * destruct H as (k & -> & Hk & Hacc & Hbefore). exists (S k).
        repeat split; [lia | exact Hk | exact Hacc |].
        intros [|k'] m' Hlt; simpl.
        -- intros [= <-]. eauto.
        -- apply Hbefore. lia.
      * intros m' Hin. apply elem_of_cons in Hin as [->|Hin]; [eauto|].
        apply H, Hin.
Qed.

Lemma dummy_init (name : string) (a : Z) :
  NmapOSMatch.__init__
    {| md_osmatch :=
         Some (<["name" := PStr name]>
                 (<["accuracy" := PInt a]> (<["line" := PInt (-1)]> ∅)));
       md_osclasses := Some [] |}
  = inr {| NmapOSMatch._name := PStr name; NmapOSMatch._line := PInt (-1);
           NmapOSMatch._accuracy := PInt a; NmapOSMatch._osclasses := [];
           NmapOSMatch._NmapOSMatch__osclasses := None |}.
Proof. reflexivity. Qed.

Lemma add_dummy_osmatch_eq (self : NmapOSFingerprint.t) (c : NmapOSClass.t) :
  NmapOSFingerprint._add_dummy_osmatch self c =
    let* a := NmapOSClass.accuracy c in
    inr (NmapOSFingerprint.set_osmatches self
           (NmapOSFingerprint.__osmatches self ++ [dummy_osmatch c a])).
Proof.
  unfold NmapOSFingerprint._add_dummy_osmatch.
  destruct (NmapOSClass.accuracy c) as [e|a]; simpl; [reflexivity|].
  rewrite dummy_init. reflexivity.
Qed.

Lemma set_osmatches_same (self : NmapOSFingerprint.t) :
  NmapOSFingerprint.set_osmatches self (NmapOSFingerprint.__osmatches self) = self.
Proof. destruct self. reflexivity. Qed.

(** The first loop of the constructor. *)
Lemma add_osmatches_ok (self : NmapOSFingerprint.t) (l : list osmatch_dict)
    (ms : list NmapOSMatch.t) :
  Forall2 builds l ms ->
  NmapOSFingerprint.add_osmatches self l =
    inr (NmapOSFingerprint.set_osmatches self
           (NmapOSFingerprint.__osmatches self ++ ms)).
Proof.
  intros H. revert self. induction H as [|md m l ms Hm _ IH]; intros self; simpl.
  - rewrite app_nil_r, set_osmatches_same. reflexivity.
  - unfold builds in Hm. rewrite Hm. simpl. rewrite IH. simpl.
    rewrite <- app_assoc. reflexivity.
Qed.

Lemma add_osmatches_inv (self self' : NmapOSFingerprint.t) (l : list osmatch_dict) :
  NmapOSFingerprint.add_osmatches self l = inr self' ->
  exists ms, Forall2 builds l ms /\
    self' = NmapOSFingerprint.set_osmatches self
              (NmapOSFingerprint.__osmatches self ++ ms).
Proof.
  revert self. induction l as [|md l IH]; intros self; simpl.
  - intros [= <-]. exists []. split; [constructor|].
    rewrite app_nil_r, set_osmatches_same. reflexivity.
  - destruct (NmapOSMatch.__init__ md) as [e|m] eqn:Hm; simpl; [discriminate|].
    intros H. apply IH in H as (ms & Hms & ->). exists (m :: ms). split.
    + constructor; [exact Hm | exact Hms].
    + simpl. rewrite <- app_assoc. reflexivity.
Qed.

Lemma add_osmatches_raises (self : NmapOSFingerprint.t) (l : list osmatch_dict)
    (md : osmatch_dict) :
  md ∈ l -> raises (NmapOSMatch.__init__ md) ->
  raises (NmapOSFingerprint.add_osmatches self l).
Proof.
  intros Hin Hr. revert self. induction l as [|x l IH]; intros self;
    [inversion Hin|].
  simpl. destruct (NmapOSMatch.__init__ x) as [e|m] eqn:Hx; simpl.
  - exists e. reflexivity.
  - apply elem_of_cons in Hin as [->|Hin].
    + destruct Hr as [e He]. congruence.
    + apply IH, Hin.
Qed.

(** One round of the second loop: the class object is built, looked up
    and, since the lookup finds nothing, wrapped in a placeholder. *)
Lemma add_osclasses_step (self self' : NmapOSFingerprint.t) (cd : osclass_dict)
    (rest : list osclass_dict) :
  NmapOSFingerprint.add_osclasses self (cd :: rest) = inr self' ->
  exists m, placeholder_for cd m /\
    NmapOSFingerprint.add_osclasses
      (NmapOSFingerprint.set_osmatches self
         (NmapOSFingerprint.__osmatches self ++ [m])) rest = inr self'.
Proof.
  simpl. intros H.
  apply py_bind_inr in H as (c & Hc & H).
  apply py_bind_inr in H as (found & Hfound & H).
  apply py_bind_inr in H as (self1 & Hstep & H).
  apply get_osmatch_from_object in Hfound as ->.
  rewrite add_dummy_osmatch_eq in Hstep.
  apply py_bind_inr in Hstep as (a & Ha & [= <-]).
  exists (dummy_osmatch c a). split; [|exact H].
  exists c, a. repeat split; assumption.
Qed.

Lemma add_osclasses_inv (self self' : NmapOSFingerprint.t) (l : list osclass_dict) :
  NmapOSFingerprint.add_osclasses self l = inr self' ->
  exists ds, Forall2 placeholder_for l ds /\
    self' = NmapOSFingerprint.set_osmatches self
              (NmapOSFingerprint.__osmatches self ++ ds).
Proof.
  revert self. induction l as [|cd l IH]; intros self.
  - simpl. intros [= <-]. exists []. split; [constructor|].
    rewrite app_nil_r, set_osmatches_same. reflexivity.
  - intros H. apply add_osclasses_step in H as (m & Hm & H).
    apply IH in H as (ds & Hds & ->). exists (m :: ds). split.
    + constructor; assumption.
    + simpl. rewrite <- app_assoc. reflexivity.
Qed.

Lemma add_osclasses_raises (self : NmapOSFingerprint.t) (l : list osclass_dict)
    (cd : osclass_dict) :
  cd ∈ l -> raises (NmapOSClass.__init__ cd) ->
  raises (NmapOSFingerprint.add_osclasses self l).
Proof.
  intros Hin Hr. revert self. induction l as [|x l IH]; intros self;
    [inversion Hin|].
  destruct (raises_or_returns (NmapOSFingerprint.add_osclasses self (x :: l)))
    as [Hraises|[self' Hok]]; [exact Hraises|].
  apply add_osclasses_step in Hok as (m & (c & a & Hc & _) & Hrest).
  apply elem_of_cons in Hin as [->|Hin].
  - destruct Hr as [e He]. unfold constructs in Hc. congruence.
  - destruct (IH Hin (NmapOSFingerprint.set_osmatches self
                        (NmapOSFingerprint.__osmatches self ++ [m])))
      as [e He]. congruence.
Qed.

(** The third loop of the constructor. *)
Lemma add_fingerprints_eq (fingerprints : list string)
    (l : list (gmap string string)) :
  NmapOSFingerprint.add_fingerprints fingerprints l =
    fingerprints ++ fingerprint_fields l.
Proof.
  revert fingerprints. induction l as [|x l IH]; intros acc; simpl.
  - rewrite app_nil_r. reflexivity.
  - unfold fingerprint_fields. simpl.
    destruct (x !! "fingerprint") as [fp|]; rewrite IH; [|reflexivity].
    rewrite <- app_assoc. reflexivity.
Qed.

(** The constructor, loop by loop. *)
Lemma NmapOSFingerprint_init_eq (d : osfp_data) :
  NmapOSFingerprint.__init__ d =
    let* self1 := NmapOSFingerprint.add_osmatches fresh (default [] (fd_osmatches d)) in
    let* self2 := NmapOSFingerprint.add_osclasses self1 (default [] (fd_osclasses d)) in
    inr {| NmapOSFingerprint.__osmatches := NmapOSFingerprint.__osmatches self2;
           NmapOSFingerprint.__ports_used :=
             default (NmapOSFingerprint.__ports_used self2) (fd_ports_used d);
           NmapOSFingerprint.__fingerprints :=
             NmapOSFingerprint.add_fingerprints
               (NmapOSFingerprint.__fingerprints self2)
               (default [] (fd_osfingerprints d)) |}.
Proof.
  unfold NmapOSFingerprint.__init__, fresh.
  destruct (fd_osmatches d) as [ms|], (fd_osclasses d) as [cs|],
    (fd_osfingerprints d) as [fps|], (fd_ports_used d) as [ports|]; simpl;
    try reflexivity;
    repeat (match goal with
            | |- py_bind ?c _ = py_bind ?c _ =>
                destruct c as [?e|[? ? ?]]; simpl; try reflexivity
            end).
Qed.

Lemma NmapOSFingerprint_init_inv (d : osfp_data) (fp : NmapOSFingerprint.t) :
  NmapOSFingerprint.__init__ d = inr fp ->
  exists ms ds,
    Forall2 builds (default [] (fd_osmatches d)) ms /\
    Forall2 placeholder_for (default [] (fd_osclasses d)) ds /\
    fp = {| NmapOSFingerprint.__osmatches := ms ++ ds;
            NmapOSFingerprint.__ports_used := default [] (fd_ports_used d);
            NmapOSFingerprint.__fingerprints :=
              fingerprint_fields (default [] (fd_osfingerprints d)) |}.
Proof.
  rewrite NmapOSFingerprint_init_eq. intros H.
  apply py_bind_inr in H as (self1 & H1 & H).
  apply py_bind_inr in H as (self2 & H2 & [= <-]).
  apply add_osmatches_inv in H1 as (ms & Hms & ->).
  apply add_osclasses_inv in H2 as (ds & Hds & ->).
  exists ms, ds. repeat split; try assumption.
  simpl. rewrite add_fingerprints_eq. reflexivity.
Qed.

Lemma NmapOSFingerprint_init_raises_match (d : osfp_data)
    (l : list osmatch_dict) (md : osmatch_dict) :
  fd_osmatches d = Some l -> md ∈ l -> raises (NmapOSMatch.__init__ md) ->
  raises (NmapOSFingerprint.__init__ d).
Proof.
  intros Hl Hin Hr. rewrite NmapOSFingerprint_init_eq, Hl. simpl.
  destruct (add_osmatches_raises fresh l md Hin Hr) as [e ->].
  exists e. reflexivity.
Qed.

Lemma NmapOSFingerprint_init_raises_class (d : osfp_data)
    (l : list osclass_dict) (cd : osclass_dict) :
  fd_osclasses d = Some l -> cd ∈ l -> raises (NmapOSClass.__init__ cd) ->
  raises (NmapOSFingerprint.__init__ d).
Proof.
  intros Hl Hin Hr. rewrite NmapOSFingerprint_init_eq, Hl. simpl.
  destruct (NmapOSFingerprint.add_osmatches fresh (default [] (fd_osmatches d)))
    as [e|self1]; simpl; [exists e; reflexivity|].
  destruct (add_osclasses_raises self1 l cd Hin Hr) as [e ->].
  exists e. reflexivity.
Qed.

(** ** Attribution of orphan classes *)

(** C1. The constructor passes the class object itself to
    [get_osmatch], whose comparison of an integer accuracy with it is
    never true. So in every reconciler that was built the stored matches
    are as many as the match records and the orphan class records
    together, and the match stored at the position of a match record is
    the object built from that record alone: no orphan class is attached
    to it. On the report with one match of accuracy 95 and one orphan
    class of accuracy 95 the match keeps an empty class list and a
    placeholder with line -1 is stored after it. *)
Theorem same_accuracy_class_not_attached :
  (forall (self : NmapOSFingerprint.t) (c : NmapOSClass.t)
          (r : option (nat * NmapOSMatch.t)),
     NmapOSFingerprint.get_osmatch self (OClass c) = inr r -> r = None)
  /\ (forall (d : osfp_data) (fp : NmapOSFingerprint.t),
        NmapOSFingerprint.__init__ d = inr fp ->
        length (NmapOSFingerprint.__osmatches fp) =
          (length (default [] (fd_osmatches d)) +
           length (default [] (fd_osclasses d)))%nat
        /\ forall (i : nat) (md : osmatch_dict),
             default [] (fd_osmatches d) !! i = Some md ->
             exists m, NmapOSFingerprint.__osmatches fp !! i = Some m /\
                       builds md m)
  /\ NmapOSFingerprint.__init__ report_same_accuracy =
       inr {| NmapOSFingerprint.__osmatches :=
                [linux_3x_obj; dummy_osmatch linux_class_obj 95];
              NmapOSFingerprint.__ports_used := [];
              NmapOSFingerprint.__fingerprints := [] |}
  /\ NmapOSMatch.accuracy linux_3x_obj = inr 95%Z
  /\ NmapOSClass.accuracy linux_class_obj = inr 95%Z
  /\ NmapOSMatch.osclasses linux_3x_obj = []
  /\ NmapOSMatch.line (dummy_osmatch linux_class_obj 95) = inr (-1)%Z.
Proof.
  split; [|split; [|repeat split; reflexivity]].
  - intros self c r. apply get_osmatch_from_object.
  - intros d fp Hinit.
    apply NmapOSFingerprint_init_inv in Hinit as (ms & ds & Hms & Hds & ->).
    simpl. split.
    + rewrite length_app, (Forall2_length _ _ _ Hms), (Forall2_length _ _ _ Hds).
      reflexivity.
    + intros i md Hi.
      destruct (Forall2_lookup_l _ _ _ _ _ Hms Hi) as (m & Hm & Hbuilds).
      exists m. split; [apply lookup_app_l_Some, Hm | exact Hbuilds].
Qed.

Lemma same_accuracy_class_not_attached_witness :
  length [linux_3x_obj; dummy_osmatch linux_class_obj 95] = 2%nat
  /\ exists m, [linux_3x_obj; dummy_osmatch linux_class_obj 95] !! 0%nat = Some m
               /\ builds linux_3x m.
Proof.
  destruct same_accuracy_class_not_attached as (_ & Hinit & _).
  destruct (Hinit report_same_accuracy
              {| NmapOSFingerprint.__osmatches :=
                   [linux_3x_obj; dummy_osmatch linux_class_obj 95];
                 NmapOSFingerprint.__ports_used := [];
                 NmapOSFingerprint.__fingerprints := [] |} eq_refl)
    as [Hlen Hat].
  split; [exact Hlen|]. exact (Hat 0%nat linux_3x eq_refl).
Defined.

(** C2. In every reconciler that was built, the match stored for the
    orphan class record at position [i] comes after the matches of the
    match records, has line -1, the name made of the type, vendor and
    osfamily of the class and the accuracy of the class, but its class
    list is empty: the class object is not stored in it. So it is on the
    report with one match of accuracy 95 and one orphan class of accuracy
    70, whose placeholder is named "router:Cisco:IOS". *)
Theorem placeholder_has_no_class :
  (forall (d : osfp_data) (fp : NmapOSFingerprint.t) (cs : list osclass_dict)
          (i : nat) (cd : osclass_dict),
     NmapOSFingerprint.__init__ d = inr fp ->
     fd_osclasses d = Some cs -> cs !! i = Some cd ->
     exists c a m,
       constructs cd c /\ NmapOSClass.accuracy c = inr a /\
       NmapOSFingerprint.__osmatches fp
         !! (length (default [] (fd_osmatches d)) + i)%nat = Some m /\
       NmapOSMatch.line m = inr (-1)%Z /\
       NmapOSMatch.name m =
         PStr (py_str (NmapOSClass.type c) +:+ ":" +:+
               py_str (NmapOSClass.vendor c) +:+ ":" +:+
               py_str (NmapOSClass.osfamily c)) /\
       NmapOSMatch.accuracy m = inr a /\
       NmapOSMatch.osclasses m = [])
  /\ NmapOSFingerprint.__init__ report_other_accuracy = inr two_matches
  /\ NmapOSFingerprint.__osmatches two_matches !! 1%nat =
       Some (dummy_osmatch cisco_class_obj 70)
  /\ NmapOSMatch.name (dummy_osmatch cisco_class_obj 70) = PStr "router:Cisco:IOS"
  /\ NmapOSMatch.line (dummy_osmatch cisco_class_obj 70) = inr (-1)%Z
  /\ NmapOSMatch.accuracy (dummy_osmatch cisco_class_obj 70) = inr 70%Z
  /\ NmapOSMatch.osclasses (dummy_osmatch cisco_class_obj 70) = [].
Proof.
  split; [|repeat split; reflexivity].
  intros d fp cs i cd Hinit Hcs Hi.
  apply NmapOSFingerprint_init_inv in Hinit as (ms & ds & Hms & Hds & ->).
  rewrite Hcs in Hds. simpl in Hds.
  destruct (Forall2_lookup_l _ _ _ _ _ Hds Hi) as (m & Hm & c & a & Hc & Ha & ->).
  exists c, a, (dummy_osmatch c a). simpl.
  split; [exact Hc|]. split; [exact Ha|]. split.
  - rewrite (Forall2_length _ _ _ Hms), lookup_app_r by lia.
    replace (length ms + i - length ms)%nat with i by lia. exact Hm.
  - repeat split; reflexivity.
Qed.

Lemma placeholder_has_no_class_witness :
  exists c a m,
    constructs cisco_class c /\ NmapOSClass.accuracy c = inr a /\
    NmapOSFingerprint.__osmatches two_matches !! (1 + 0)%nat = Some m /\
    NmapOSMatch.line m = inr (-1)%Z /\
    NmapOSMatch.name m =
      PStr (py_str (NmapOSClass.type c) +:+ ":" +:+
            py_str (NmapOSClass.vendor c) +:+ ":" +:+
            py_str (NmapOSClass.osfamily c)) /\
    NmapOSMatch.accuracy m = inr a /\
    NmapOSMatch.osclasses m = [].
Proof.
  exact (proj1 placeholder_has_no_class report_other_accuracy two_matches
           [cisco_class] 0%nat cisco_class eq_refl eq_refl eq_refl).
Defined.

(** ** Validation of required attributes *)

Lemma is_ValidationError_raises {A : Type} (c : py A) :
  is_ValidationError c -> raises c.
Proof. intros [msg ->]. eexists. reflexivity. Qed.

Lemma NmapOSClass_init_validation (cd : osclass_dict) :
  is_ValidationError (NmapOSClass.__init__ cd) <->
  exists attrs, cd_osclass cd = Some attrs /\ omits_one_of class_required attrs.
Proof.
  split.
  - intros [msg H]. destruct (cd_osclass cd) as [attrs|] eqn:Hattrs.
    2:{ rewrite (NmapOSClass_init_no_osclass cd Hattrs) in H. discriminate. }
    exists attrs. split; [reflexivity|].
    destruct (omits_or_has_all class_required attrs) as [Homit|Hall];
      [exact Homit|].
    destruct (cd_cpe cd) as [cpes|] eqn:Hcpe.
    + destruct (Hall "vendor") as [v Hv]; [unfold class_required; set_solver|].
      destruct (Hall "osfamily") as [f Hf]; [unfold class_required; set_solver|].
      destruct (Hall "accuracy") as [a Ha]; [unfold class_required; set_solver|].
      rewrite (NmapOSClass_init_ok cd attrs cpes v f a Hattrs Hcpe Hv Hf Ha) in H.
      discriminate.
    + rewrite (NmapOSClass_init_no_cpe cd attrs Hattrs Hall Hcpe) in H.
      discriminate.
  - intros (attrs & Hattrs & Homit). eexists.
    apply (NmapOSClass_init_omits cd attrs Hattrs Homit).
Qed.

Lemma NmapOSMatch_init_validation (md : osmatch_dict) :
  is_ValidationError (NmapOSMatch.__init__ md) <->
  exists attrs, md_osmatch md = Some attrs /\
    (omits_one_of match_required attrs \/
     exists cd, cd ∈ nested md /\ raises (NmapOSClass.__init__ cd)).
Proof.
  split.
  - intros [msg H]. destruct (md_osmatch md) as [attrs|] eqn:Hattrs.
    2:{ rewrite (NmapOSMatch_init_no_osmatch md Hattrs) in H. discriminate. }
    exists attrs. split; [reflexivity|].
    destruct (omits_or_has_all match_required attrs) as [Homit|Hall];
      [left; exact Homit|right].
    destruct (NmapOSMatch_init_has_all md attrs Hattrs Hall)
      as (n & l & a & _ & _ & _ & Heq).
    rewrite Heq in H.
    destruct (NmapOSMatch.append_osclasses [] (nested md)) as [acc' [e|]] eqn:Hloop;
      [|discriminate].
    apply append_osclasses_inv in Hloop as (_ & Hcd). exact Hcd.
  - intros (attrs & Hattrs & [Homit|(cd & Hin & Hr)]).
    + eexists. apply (NmapOSMatch_init_omits md attrs Hattrs Homit).
    + destruct (omits_or_has_all match_required attrs) as [Homit|Hall].
      * eexists. apply (NmapOSMatch_init_omits md attrs Hattrs Homit).
      * eexists. apply (NmapOSMatch_init_nested_raises md attrs cd Hattrs Hall Hin Hr).
Qed.

(** C3, as stated, fails: a match record that has name, line and
    accuracy, nesting a class record that has vendor, osfamily and
    accuracy but no ['cpe'] key, is rejected with the same error kind
    as a record with a missing required attribute. *)
Lemma complete_record_rejected :
  is_ValidationError (NmapOSMatch.__init__ linux_3x_nesting_no_cpe)
  /\ ~ required_field_absent linux_3x_nesting_no_cpe.
Proof.
  split.
  - exists "Could not create NmapOSClass object". reflexivity.
  - intros [(attrs & [= <-] & k & Hin & Hnone)|(cd & attrs & Hcd & Hattrs & k & Hin & Hnone)].
    + unfold match_required in Hin.
      repeat (apply elem_of_cons in Hin as [->|Hin]);
        [discriminate..|inversion Hin].
    + unfold nested in Hcd. simpl in Hcd.
      apply list_elem_of_singleton in Hcd as ->. injection Hattrs as <-.
      unfold class_required in Hin.
      repeat (apply elem_of_cons in Hin as [->|Hin]);
        [discriminate..|inversion Hin].
Qed.

(** C3, amended. A class record is rejected with the validation error
    exactly when its attributes are present and lack vendor, osfamily or
    accuracy. A match record is rejected with the validation error
    exactly when its attributes are present and either lack name, line
    or accuracy, or one of its nested class records cannot be built,
    whatever the reason. A class record that has the three required
    attributes and its ['cpe'] list is built, generation and type being
    the empty string when missing. A contained record that cannot be
    built makes the construction of the reconciler raise, so nothing is
    returned. *)
Theorem required_fields_validation :
  (forall cd : osclass_dict,
     is_ValidationError (NmapOSClass.__init__ cd) <->
     exists attrs, cd_osclass cd = Some attrs /\
                   omits_one_of class_required attrs)
  /\ (forall md : osmatch_dict,
        is_ValidationError (NmapOSMatch.__init__ md) <->
        exists attrs, md_osmatch md = Some attrs /\
          (omits_one_of match_required attrs \/
           exists cd, cd ∈ nested md /\ raises (NmapOSClass.__init__ cd)))
  /\ (forall (cd : osclass_dict) (attrs : gmap string pyval) (cpes : list string),
        cd_osclass cd = Some attrs -> cd_cpe cd = Some cpes ->
        has_all_of class_required attrs ->
        exists c, NmapOSClass.__init__ cd = inr c /\
          (attrs !! "osgen" = None -> NmapOSClass.osgen c = PStr "") /\
          (attrs !! "type" = None -> NmapOSClass.type c = PStr ""))
  /\ (forall (d : osfp_data) (l : list osmatch_dict) (md : osmatch_dict),
        fd_osmatches d = Some l -> md ∈ l -> raises (NmapOSMatch.__init__ md) ->
        raises (NmapOSFingerprint.__init__ d))
  /\ (forall (d : osfp_data) (l : list osclass_dict) (cd : osclass_dict),
        fd_osclasses d = Some l -> cd ∈ l -> raises (NmapOSClass.__init__ cd) ->
        raises (NmapOSFingerprint.__init__ d)).
Proof.
  split; [exact NmapOSClass_init_validation|].
  split; [exact NmapOSMatch_init_validation|].
  split; [|split;
    [exact NmapOSFingerprint_init_raises_match
    |exact NmapOSFingerprint_init_raises_class]].
  intros cd attrs cpes Hattrs Hcpe Hall.
  destruct (Hall "vendor") as [v Hv]; [unfold class_required; set_solver|].
  destruct (Hall "osfamily") as [f Hf]; [unfold class_required; set_solver|].
  destruct (Hall "accuracy") as [a Ha]; [unfold class_required; set_solver|].
  eexists. split.
  - apply (NmapOSClass_init_ok cd attrs cpes v f a Hattrs Hcpe Hv Hf Ha).
  - simpl. split; intros ->; reflexivity.
Qed.

Lemma required_fields_validation_witness :
  is_ValidationError (NmapOSClass.__init__ class_no_vendor)
  /\ is_ValidationError (NmapOSMatch.__init__ linux_3x_nesting_no_cpe)
  /\ (exists c, NmapOSClass.__init__ class_bare = inr c /\
        (delete "type" linux_attrs !! "osgen" = None ->
         NmapOSClass.osgen c = PStr "") /\
        (delete "type" linux_attrs !! "type" = None ->
         NmapOSClass.type c = PStr ""))
  /\ raises (NmapOSFingerprint.__init__
               {| fd_osmatches := Some [linux_3x; linux_3x_nesting_no_cpe];
                  fd_osclasses := None; fd_osfingerprints := None;
                  fd_ports_used := None |})
  /\ raises (NmapOSFingerprint.__init__
               {| fd_osmatches := Some [linux_3x];
                  fd_osclasses := Some [linux_class; class_no_vendor];
                  fd_osfingerprints := None; fd_ports_used := None |}).
Proof.
  destruct required_fields_validation as (Hclass & Hmatch & Hdefault & Hm & Hc).
  split; [|split; [|split; [|split]]].
  - apply (proj2 (Hclass class_no_vendor)).
    exists (delete "vendor" linux_attrs). split; [reflexivity|].
    exists "vendor". split; [apply list_elem_of_here | reflexivity].
  - apply (proj2 (Hmatch linux_3x_nesting_no_cpe)). exists linux_3x_attrs.
    split; [reflexivity|]. right.
    exists linux_class_no_cpe. split; [apply list_elem_of_here|].
    exists (KeyError "cpe"). reflexivity.
  - apply (Hdefault class_bare (delete "type" linux_attrs) []);
      [reflexivity..|].
    intros k Hin. unfold class_required in Hin.
    repeat (apply elem_of_cons in Hin as [->|Hin]);
      [eexists; reflexivity..|inversion Hin].
  - apply (Hm _ [linux_3x; linux_3x_nesting_no_cpe] linux_3x_nesting_no_cpe);
      [reflexivity | apply list_elem_of_further, list_elem_of_here |].
    exists (Exception "Could not create NmapOSClass object"). reflexivity.
  - apply (Hc _ [linux_class; class_no_vendor] class_no_vendor);
      [reflexivity | apply list_elem_of_further, list_elem_of_here |].
    exists (Exception "Wrong osclass structure: missing required key").
    reflexivity.
Defined.

(** ** The match query *)

Lemma osmatches_loop_inv (acc : list NmapOSMatch.t) (ms : list NmapOSMatch.t)
    (x : Z) (r : list NmapOSMatch.t) :
  NmapOSFingerprint.osmatches_loop acc ms x = inr r ->
  r = acc ++ List.filter (accuracy_at_least x) ms.
Proof.
  revert acc. induction ms as [|m ms IH]; intros acc; simpl.
  - intros [= <-]. rewrite app_nil_r. reflexivity.
  - unfold accuracy_at_least at 1.
    destruct (NmapOSMatch.accuracy m) as [e|a]; simpl; [discriminate|].
    destruct (a >=? x)%Z; intros H; apply IH in H as ->; [|reflexivity].
    rewrite <- app_assoc. reflexivity.
Qed.

Lemma osmatches_loop_total (acc : list NmapOSMatch.t) (ms : list NmapOSMatch.t)
    (x : Z) :
  Forall (fun m => exists a, NmapOSMatch.accuracy m = inr a) ms ->
  exists r, NmapOSFingerprint.osmatches_loop acc ms x = inr r.
Proof.
  intros H. revert acc. induction H as [|m ms [a Ha] _ IH]; intros acc; simpl.
  - eexists. reflexivity.
  - rewrite Ha. simpl. destruct (a >=? x)%Z; apply IH.
Qed.

(** The function under the property does select, in order, the stored
    matches whose accuracy is at least its second argument. *)
Lemma osmatches_fget_filter (self : NmapOSFingerprint.t) (x : Z) :
  Forall (fun m => exists a, NmapOSMatch.accuracy m = inr a)
    (NmapOSFingerprint.__osmatches self) ->
  NmapOSFingerprint.osmatches_fget self x =
    inr (List.filter (accuracy_at_least x) (NmapOSFingerprint.__osmatches self)).
Proof.
  intros H. unfold NmapOSFingerprint.osmatches_fget.
  destruct (osmatches_loop_total [] _ x H) as [r Hr]. rewrite Hr.
  apply osmatches_loop_inv in Hr as ->. reflexivity.
Qed.

Lemma osmatches_call_raises (self : NmapOSFingerprint.t) (args : list Z) :
  raises (NmapOSFingerprint.osmatches_call self args).
Proof.
  unfold NmapOSFingerprint.osmatches_call.
  destruct (NmapOSFingerprint.osmatches self) as [e|value]; simpl;
    eexists; reflexivity.
Qed.

(** C4. [osmatches] is declared as a property, so a threshold cannot be
    handed to it: [self.osmatches(x)] reads the property, which filters
    with the default threshold 0, and then calls the list it got, which
    raises. On the reconciler holding matches of accuracy 95 and 70 the
    query with threshold 80 raises instead of returning the one match
    of accuracy 95, and reading the property returns both matches. *)
Theorem osmatches_takes_no_threshold :
  (forall (self : NmapOSFingerprint.t) (args : list Z) (r : list NmapOSMatch.t),
     NmapOSFingerprint.osmatches_call self args <> inr r)
  /\ NmapOSFingerprint.osmatches_call two_matches [80%Z] =
       inl (TypeError "'list' object is not callable")
  /\ NmapOSFingerprint.osmatches two_matches =
       inr [linux_3x_obj; dummy_osmatch cisco_class_obj 70]
  /\ List.filter (accuracy_at_least 80)
       (NmapOSFingerprint.__osmatches two_matches) = [linux_3x_obj].
Proof.
  split; [|repeat split; reflexivity].
  intros self args r. apply raises_not_inr, osmatches_call_raises.
Qed.

(** ** Nested class records *)

(** C5. In a reconciler that was built, the match stored at the position
    of a match record is the object built from that record, and its
    class list holds, in order, the objects built from the class records
    nested in the record. A nested class record that cannot be built
    makes the construction of the match raise. *)
Theorem nested_classes_round_trip :
  (forall (d : osfp_data) (fp : NmapOSFingerprint.t) (l : list osmatch_dict)
          (i : nat) (md : osmatch_dict),
     NmapOSFingerprint.__init__ d = inr fp ->
     fd_osmatches d = Some l -> l !! i = Some md ->
     exists m, NmapOSFingerprint.__osmatches fp !! i = Some m /\
       builds md m /\
       Forall2 constructs (nested md) (NmapOSMatch.osclasses m))
  /\ (forall (md : osmatch_dict) (cd : osclass_dict),
        cd ∈ nested md -> raises (NmapOSClass.__init__ cd) ->
        raises (NmapOSMatch.__init__ md)).
Proof.
  split.
  - intros d fp l i md Hinit Hl Hi.
    apply NmapOSFingerprint_init_inv in Hinit as (ms & ds & Hms & _ & ->).
    rewrite Hl in Hms. simpl in Hms.
    destruct (Forall2_lookup_l _ _ _ _ _ Hms Hi) as (m & Hm & Hbuilds).
    exists m. simpl. split; [apply lookup_app_l_Some, Hm|].
    split; [exact Hbuilds|].
    apply NmapOSMatch_init_inv in Hbuilds as (attrs & _ & _ & _ & _ & Hcs & _).
    exact Hcs.
  - intros md cd Hin Hr.
    destruct (md_osmatch md) as [attrs|] eqn:Hattrs.
    + apply is_ValidationError_raises, NmapOSMatch_init_validation.
      exists attrs. split; [exact Hattrs|]. right. exists cd. split; assumption.
    + exists (KeyError "osmatch"). apply NmapOSMatch_init_no_osmatch, Hattrs.
Qed.

Lemma nested_classes_round_trip_witness :
  (exists fp, NmapOSFingerprint.__init__ report_nested = inr fp /\
     exists m, NmapOSFingerprint.__osmatches fp !! 0%nat = Some m /\
       builds linux_3x_nesting m /\
       Forall2 constructs (nested linux_3x_nesting) (NmapOSMatch.osclasses m))
  /\ raises (NmapOSMatch.__init__ linux_3x_nesting_no_cpe).
Proof.
  split.
  - eexists. split; [reflexivity|].
    apply (proj1 nested_classes_round_trip report_nested _
             [linux_3x_nesting] 0%nat linux_3x_nesting);
      reflexivity.
  - apply (proj2 nested_classes_round_trip linux_3x_nesting_no_cpe
             linux_class_no_cpe).
    + apply list_elem_of_here.
    + exists (KeyError "cpe"). reflexivity.
Defined.

(** ** Fingerprints *)

(** C7. In a reconciler built from a report with an ['osfingerprints']
    group, [fingerprints] is the list of the ['fingerprint'] values of
    the entries that have one, in the order of the entries, and
    [fingerprint] is that list joined with CR LF. Entries without the key
    are passed over: whether the construction returns does not depend on
    the group. *)
Theorem fingerprints_in_input_order :
  (forall (d : osfp_data) (fp : NmapOSFingerprint.t)
          (l : list (gmap string string)),
     NmapOSFingerprint.__init__ d = inr fp ->
     fd_osfingerprints d = Some l ->
     NmapOSFingerprint.fingerprints fp = fingerprint_fields l /\
     NmapOSFingerprint.fingerprint fp = String.concat crlf (fingerprint_fields l))
  /\ (forall (d : osfp_data) (g : option (list (gmap string string))),
        (exists fp, NmapOSFingerprint.__init__ d = inr fp) ->
        exists fp', NmapOSFingerprint.__init__ (with_osfingerprints d g) = inr fp')
  /\ (forall (acc : list string) (e : gmap string string)
             (l : list (gmap string string)),
        NmapOSFingerprint.add_fingerprints acc (e :: l) =
          match e !! "fingerprint" with
          | Some text => NmapOSFingerprint.add_fingerprints (acc ++ [text]) l
          | None => NmapOSFingerprint.add_fingerprints acc l
          end).
Proof.
  split; [|split].
  - intros d fp l Hinit Hl.
    apply NmapOSFingerprint_init_inv in Hinit as (ms & ds & _ & _ & ->).
    rewrite Hl. split; reflexivity.
  - intros d g [fp Hinit]. rewrite NmapOSFingerprint_init_eq in Hinit.
    rewrite NmapOSFingerprint_init_eq. simpl.
    destruct (NmapOSFingerprint.add_osmatches fresh (default [] (fd_osmatches d)))
      as [e|self1]; simpl in *; [discriminate|].
    destruct (NmapOSFingerprint.add_osclasses self1 (default [] (fd_osclasses d)))
      as [e|self2]; simpl in *; [discriminate|].
    eexists. reflexivity.
  - intros acc e l. reflexivity.
Qed.

Lemma fingerprints_in_input_order_witness :
  NmapOSFingerprint.__init__ report_nested = inr nested_reconciler
  /\ NmapOSFingerprint.fingerprints nested_reconciler = ["OS:Linux"; "OPS(...)"]
  /\ NmapOSFingerprint.fingerprint nested_reconciler =
       "OS:Linux" +:+ crlf +:+ "OPS(...)"
  /\ (exists fp',
        NmapOSFingerprint.__init__
          (with_osfingerprints report_other_accuracy (Some [∅; ∅])) = inr fp').
Proof.
  destruct fingerprints_in_input_order as (Horder & Hskip & _).
  split; [reflexivity|].
  destruct (Horder report_nested nested_reconciler
              [ {["fingerprint" := "OS:Linux"]}; ∅;
                {["fingerprint" := "OPS(...)"]} ] eq_refl eq_refl)
    as [Hlist Htext].
  split; [exact Hlist|]. split; [exact Htext|].
  apply Hskip. exists two_matches. reflexivity.
Defined.

(** ** Adding a class to a match *)

(** C8. [add_osclass] tests ['osclass' in class_dict] first: handed a
    built [NmapOSClass] object it raises a type error and appends
    nothing. Handed a dictionary without class data it raises the
    validation error; handed a dictionary with class data, on a match
    that [NmapOSMatch] built, it raises an attribute error, because it
    appends to [self.__osclasses], which is not the attribute
    [self._osclasses] that the constructor set. Whenever it returns, the
    class list of the match is unchanged. *)
Theorem add_osclass_never_appends :
  (forall (self : NmapOSMatch.t) (c : NmapOSClass.t),
     NmapOSMatch.add_osclass self (OClass c) =
       inl (TypeError "argument of type 'NmapOSClass' is not iterable"))
  /\ NmapOSMatch.add_osclass linux_3x_obj (OClass linux_class_obj) =
       inl (TypeError "argument of type 'NmapOSClass' is not iterable")
  /\ (forall (self : NmapOSMatch.t) (d : osclass_dict),
        cd_osclass d = None ->
        NmapOSMatch.add_osclass self (ODict d) =
          inl (Exception "Cannot add: no osclass data in provided dict"))
  /\ (forall (md : osmatch_dict) (self : NmapOSMatch.t) (d : osclass_dict),
        builds md self -> is_Some (cd_osclass d) ->
        NmapOSMatch.add_osclass self (ODict d) =
          inl (AttributeError
                 "'NmapOSMatch' object has no attribute '_NmapOSMatch__osclasses'"))
  /\ (forall (self self' : NmapOSMatch.t) (x : pyobj),
        NmapOSMatch.add_osclass self x = inr self' ->
        NmapOSMatch.osclasses self' = NmapOSMatch.osclasses self).
Proof.
  split; [reflexivity|]. split; [reflexivity|]. split; [|split].
  - intros self d Hnone. unfold NmapOSMatch.add_osclass. simpl.
    rewrite Hnone. reflexivity.
  - intros md self d Hbuilds [attrs Hattrs].
    apply NmapOSMatch_init_inv in Hbuilds as (_ & _ & _ & _ & _ & _ & Hunset).
    unfold NmapOSMatch.add_osclass. simpl. rewrite Hattrs, Hunset. reflexivity.
  - intros self self' x. unfold NmapOSMatch.add_osclass.
    destruct (NmapOSMatch.contains_osclass x) as [e|[|]]; simpl;
      [discriminate| |discriminate].
    destruct (NmapOSMatch._NmapOSMatch__osclasses self); [|discriminate].
    intros [= <-]. reflexivity.
Qed.

Lemma add_osclass_never_appends_witness :
  NmapOSMatch.add_osclass linux_3x_obj (ODict linux_class_no_cpe) =
    inl (AttributeError
           "'NmapOSMatch' object has no attribute '_NmapOSMatch__osclasses'")
  /\ NmapOSMatch.add_osclass linux_3x_obj
       (ODict {| cd_osclass := None; cd_cpe := Some [] |}) =
       inl (Exception "Cannot add: no osclass data in provided dict").
Proof.
  destruct add_osclass_never_appends as (_ & _ & Hnone & Hsome & _).
  split.
  - apply (Hsome linux_3x linux_3x_obj linux_class_no_cpe); [reflexivity|].
    exists linux_attrs. reflexivity.
  - apply Hnone. reflexivity.
Defined.

(** ** The ['cpe'] key *)

(** C9. A class record that has vendor, osfamily and accuracy but no
    ['cpe'] key is not built: [NmapOSClass] raises the key error of the
    lookup, which is not the validation error. With the key bound to the
    empty list the same record is built, with no CPE. *)
Theorem class_without_cpe_key_raises (cd : osclass_dict)
    (attrs : gmap string pyval) :
  cd_osclass cd = Some attrs ->
  is_Some (attrs !! "vendor") -> is_Some (attrs !! "osfamily") ->
  is_Some (attrs !! "accuracy") ->
  cd_cpe cd = None ->
  NmapOSClass.__init__ cd = inl (KeyError "cpe")
  /\ ~ is_ValidationError (NmapOSClass.__init__ cd)
  /\ exists c,
       NmapOSClass.__init__ {| cd_osclass := Some attrs; cd_cpe := Some [] |}
         = inr c
       /\ NmapOSClass.cpelist c = [].
Proof.
  intros Hattrs [v Hv] [f Hf] [a Ha] Hcpe.
  assert (Hall : has_all_of class_required attrs).
  { intros k Hin. unfold class_required in Hin.
    repeat (apply elem_of_cons in Hin as [->|Hin]); [eauto..|inversion Hin]. }
  assert (Hraise : NmapOSClass.__init__ cd = inl (KeyError "cpe"))
    by exact (NmapOSClass_init_no_cpe cd attrs Hattrs Hall Hcpe).
  split; [exact Hraise|]. split.
  - intros [msg Hmsg]. rewrite Hraise in Hmsg. discriminate.
  - eexists. split.
    + apply (NmapOSClass_init_ok _ attrs [] v f a); solve [reflexivity | assumption].
    + reflexivity.
Qed.

Lemma class_without_cpe_key_raises_witness :
  NmapOSClass.__init__ linux_class_no_cpe = inl (KeyError "cpe")
  /\ ~ is_ValidationError (NmapOSClass.__init__ linux_class_no_cpe)
  /\ exists c,
       NmapOSClass.__init__ {| cd_osclass := Some linux_attrs; cd_cpe := Some [] |}
         = inr c
       /\ NmapOSClass.cpelist c = [].
Proof.
  apply (class_without_cpe_key_raises linux_class_no_cpe linux_attrs);
    solve [reflexivity | eexists; reflexivity].
Defined.

(** ** The deprecated class filter *)

(** C10. [osclass] records its deprecation warning and then never
    returns: it reads the [osmatches] property and calls the value, and
    whenever that read yields its list the call raises the type error
    of calling a list. *)
Theorem osclass_never_returns (self : NmapOSFingerprint.t) (min_accuracy : Z) :
  fst (NmapOSFingerprint.osclass self min_accuracy) =
    [DeprecationWarning
       "NmapOSFingerprint.osclass() is deprecated: use NmapOSFingerprint.osclasses() if applicable"]
  /\ raises (snd (NmapOSFingerprint.osclass self min_accuracy))
  /\ (forall r, snd (NmapOSFingerprint.osclass self min_accuracy) <> inr r)
  /\ (forall value,
        NmapOSFingerprint.osmatches self = inr value ->
        snd (NmapOSFingerprint.osclass self min_accuracy) =
          inl (TypeError "'list' object is not callable")).
Proof.
  assert (Hraises : raises (snd (NmapOSFingerprint.osclass self min_accuracy))).
  { simpl. destruct (osmatches_call_raises self []) as [e ->].
    exists e. reflexivity. }
  split; [reflexivity|]. split; [exact Hraises|]. split.
  - intros r. apply raises_not_inr, Hraises.
  - intros value Hvalue. simpl. unfold NmapOSFingerprint.osmatches_call.
    rewrite Hvalue. reflexivity.
Qed.

Lemma osclass_never_returns_witness :
  snd (NmapOSFingerprint.osclass two_matches 0) =
    inl (TypeError "'list' object is not callable").
Proof.
  apply (proj2 (proj2 (proj2 (osclass_never_returns two_matches 0)))
           [linux_3x_obj; dummy_osmatch cisco_class_obj 70]).
  reflexivity.
Defined.

(** ** Further properties *)

(** X1. Called with an integer, [get_osmatch] returns the first stored
    match, in list order, whose accuracy is that integer: every match
    stored before it has another accuracy. *)
Theorem get_osmatch_integer_first (self : NmapOSFingerprint.t) (z : Z)
    (j : nat) (m : NmapOSMatch.t) :
  NmapOSFingerprint.get_osmatch self (OInt z) = inr (Some (j, m)) ->
  NmapOSFingerprint.__osmatches self !! j = Some m
  /\ NmapOSMatch.accuracy m = inr z
  /\ forall (k : nat) (m' : NmapOSMatch.t),
       (k < j)%nat -> NmapOSFingerprint.__osmatches self !! k = Some m' ->
       exists a, NmapOSMatch.accuracy m' = inr a /\ a <> z.
Proof.
  intros H. apply get_osmatch_from_integer in H as (k & -> & Hk & Hacc & Hbefore).
  simpl. split; [exact Hk|]. split; [exact Hacc|exact Hbefore].
Qed.

Lemma get_osmatch_integer_first_witness :
  NmapOSFingerprint.__osmatches two_matches !! 1%nat =
    Some (dummy_osmatch cisco_class_obj 70)
  /\ NmapOSMatch.accuracy (dummy_osmatch cisco_class_obj 70) = inr 70%Z
  /\ forall (k : nat) (m' : NmapOSMatch.t),
       (k < 1)%nat -> NmapOSFingerprint.__osmatches two_matches !! k = Some m' ->
       exists a, NmapOSMatch.accuracy m' = inr a /\ a <> 70%Z.
Proof.
  exact (get_osmatch_integer_first two_matches 70 1
           (dummy_osmatch cisco_class_obj 70) eq_refl).
Defined.

(** X2. When every stored accuracy is an integer, the function under the
    [osmatches] property, given a threshold, returns the stored matches
    whose accuracy is at least the threshold, in their stored order; the
    property itself is that function at threshold 0. *)
Theorem osmatches_function_filters (self : NmapOSFingerprint.t) (x : Z) :
  Forall (fun m => exists a, NmapOSMatch.accuracy m = inr a)
    (NmapOSFingerprint.__osmatches self) ->
  NmapOSFingerprint.osmatches_fget self x =
    inr (List.filter (accuracy_at_least x) (NmapOSFingerprint.__osmatches self))
  /\ NmapOSFingerprint.osmatches self =
       inr (List.filter (accuracy_at_least 0) (NmapOSFingerprint.__osmatches self)).
Proof.
  intros H. split; [apply osmatches_fget_filter, H|].
  unfold NmapOSFingerprint.osmatches. apply osmatches_fget_filter, H.
Qed.

Lemma osmatches_function_filters_witness :
  NmapOSFingerprint.osmatches_fget two_matches 80 =
    inr (List.filter (accuracy_at_least 80)
           (NmapOSFingerprint.__osmatches two_matches))
  /\ NmapOSFingerprint.osmatches two_matches =
       inr (List.filter (accuracy_at_least 0)
              (NmapOSFingerprint.__osmatches two_matches)).
Proof.
  apply (osmatches_function_filters two_matches 80).
  repeat constructor; eexists; reflexivity.
Defined.

(** ** The deprecated name filter *)

Lemma osmatch_loop_names (acc : list NmapOSMatch.t) (ms : list NmapOSMatch.t)
    (x : Z) :
  NmapOSFingerprint.osmatch_loop (map NmapOSMatch.name acc) ms x =
    match NmapOSFingerprint.osmatches_loop acc ms x with
    | inl e => inl e
    | inr r => inr (map NmapOSMatch.name r)
    end.
Proof.
  revert acc. induction ms as [|m ms IH]; intros acc; simpl; [reflexivity|].
  destruct (NmapOSMatch.accuracy m) as [e|a]; simpl; [reflexivity|].
  destruct (a >=? x)%Z; [|apply IH].
  rewrite <- IH, map_app. reflexivity.
Qed.

(** X3. The deprecated [osmatch] records its deprecation warning and
    then returns the names of exactly the matches that the function
    under the [osmatches] property selects for the same threshold, in
    the same order; it raises what that function raises. *)
Theorem osmatch_names_of_selected (self : NmapOSFingerprint.t) (x : Z) :
  fst (NmapOSFingerprint.osmatch self x) =
    [DeprecationWarning
       "NmapOSFingerprint.osmatch is deprecated: use NmapOSFingerprint.osmatches"]
  /\ snd (NmapOSFingerprint.osmatch self x) =
       match NmapOSFingerprint.osmatches_fget self x with
       | inl e => inl e
       | inr r => inr (map NmapOSMatch.name r)
       end.
Proof.
  split; [reflexivity|]. simpl.
  apply (osmatch_loop_names [] (NmapOSFingerprint.__osmatches self) x).
Qed.

(** ** Thresholds *)

Lemma osmatches_loop_has_int_accuracy (acc : list NmapOSMatch.t)
    (ms : list NmapOSMatch.t) (x : Z) (r : list NmapOSMatch.t) :
  NmapOSFingerprint.osmatches_loop acc ms x = inr r ->
  Forall has_int_accuracy ms.
Proof.
  revert acc. induction ms as [|m ms IH]; intros acc; simpl; [constructor|].
  destruct (NmapOSMatch.accuracy m) as [e|a] eqn:Ha; simpl; [discriminate|].
  intros H. constructor; [exists a; exact Ha|].
  destruct (a >=? x)%Z; eapply IH; exact H.
Qed.

Lemma filter_higher_threshold (x y : Z) (ms : list NmapOSMatch.t) :
  (x <= y)%Z ->
  List.filter (accuracy_at_least y) (List.filter (accuracy_at_least x) ms) =
  List.filter (accuracy_at_least y) ms.
Proof.
  intros Hxy. induction ms as [|m ms IH]; simpl; [reflexivity|].
  destruct (accuracy_at_least x m) eqn:Hx; simpl.
  - rewrite IH. reflexivity.
  - rewrite IH.
    assert (Hy : accuracy_at_least y m = false); [|rewrite Hy; reflexivity].
    unfold accuracy_at_least in *.
    destruct (NmapOSMatch.accuracy m) as [e|a]; [reflexivity|]. lia.
Qed.

(** X4. If the function under the [osmatches] property returns for a
    threshold, it returns for every higher threshold, and what it then
    returns is what the higher threshold selects among the matches
    returned for the lower one. *)
Theorem higher_threshold_selects_among (self : NmapOSFingerprint.t) (x y : Z)
    (r : list NmapOSMatch.t) :
  NmapOSFingerprint.osmatches_fget self x = inr r -> (x <= y)%Z ->
  NmapOSFingerprint.osmatches_fget self y =
    inr (List.filter (accuracy_at_least y) r).
Proof.
  intros Hx Hxy. unfold NmapOSFingerprint.osmatches_fget in Hx.
  pose proof (osmatches_loop_has_int_accuracy _ _ _ _ Hx) as Hint.
  apply osmatches_loop_inv in Hx as ->. simpl.
  rewrite (filter_higher_threshold x y _ Hxy).
  apply osmatches_fget_filter, Hint.
Qed.

Lemma higher_threshold_selects_among_witness :
  NmapOSFingerprint.osmatches_fget two_matches 80 =
    inr (List.filter (accuracy_at_least 80)
           [linux_3x_obj; dummy_osmatch cisco_class_obj 70]).
Proof.
  apply (higher_threshold_selects_among two_matches 0 80); [reflexivity|lia].
Defined.

Lemma filter_all (f : NmapOSMatch.t -> bool) (ms : list NmapOSMatch.t) :
  List.filter f ms = ms <-> Forall (fun m => f m = true) ms.
Proof.
  induction ms as [|m ms IH]; simpl.
  - split; [constructor|reflexivity].
  - destruct (f m) eqn:Hm; split.
    + intros [= H]. constructor; [exact Hm | apply IH, H].
    + intros H. inversion H; subst. f_equal. apply IH. assumption.
    + intros H. pose proof (List.filter_length_le f ms) as Hle.
      rewrite H in Hle. simpl in Hle. lia.
    + intros H. inversion H; subst. congruence.
Qed.

(** X5. Reading the [osmatches] property returns the whole stored list
    exactly when the accuracy of every stored match is an integer that is
    not negative. *)
Theorem osmatches_whole_list_iff (self : NmapOSFingerprint.t) :
  NmapOSFingerprint.osmatches self = inr (NmapOSFingerprint.__osmatches self)
  <-> Forall (fun m => exists a, NmapOSMatch.accuracy m = inr a /\ (0 <= a)%Z)
        (NmapOSFingerprint.__osmatches self).
Proof.
  unfold NmapOSFingerprint.osmatches, NmapOSFingerprint.osmatches_fget. split.
  - intros H. pose proof (osmatches_loop_has_int_accuracy _ _ _ _ H) as Hint.
    apply osmatches_loop_inv in H. simpl in H. symmetry in H.
    apply filter_all in H. rewrite Forall_forall in *.
    intros m Hm. destruct (Hint m Hm) as [a Ha]. exists a. split; [exact Ha|].
    specialize (H m Hm). unfold accuracy_at_least in H. rewrite Ha in H. lia.
  - intros H.
    assert (Hint : Forall has_int_accuracy (NmapOSFingerprint.__osmatches self)).
    { eapply Forall_impl; [exact H|]. intros m (a & Ha & _). exists a. exact Ha. }
    pose proof (osmatches_fget_filter self 0 Hint) as Hf.
    unfold NmapOSFingerprint.osmatches_fget in Hf. rewrite Hf. f_equal.
    apply filter_all. eapply Forall_impl; [exact H|].
    intros m (a & Ha & Hle). unfold accuracy_at_least. rewrite Ha. lia.
Qed.

Lemma osmatches_whole_list_iff_witness :
  NmapOSFingerprint.osmatches with_negative = inr [linux_3x_obj]
  /\ NmapOSFingerprint.osmatches with_negative <>
       inr (NmapOSFingerprint.__osmatches with_negative).
Proof.
  split; [reflexivity|].
  intros H. apply (proj1 (osmatches_whole_list_iff with_negative)) in H.
  inversion H as [|m ms _ Hrest]; subst.
  inversion Hrest as [|m' ms' (a & Ha & Hle) _]; subst.
  vm_compute in Ha. injection Ha as <-. lia.
Defined.

(** ** What the constructors keep of a record *)

Lemma map_cpestring_init (cpes : list string) :
  map CPE.cpestring (map CPE.__init__ cpes) = cpes.
Proof.
  induction cpes as [|x cpes IH]; simpl; [reflexivity|]. rewrite IH. reflexivity.
Qed.

(** X6. A class object that was built gives back its record: vendor,
    osfamily and the stored accuracy are the values of these keys,
    generation and type are the values of ['osgen'] and ['type'] or the
    empty text when the key is missing, the CPE strings of the object
    are, in order, the ['cpe'] list, and the accuracy accessor is [int]
    of the value of ['accuracy']. *)
Theorem class_object_gives_back_record (cd : osclass_dict) (c : NmapOSClass.t) :
  constructs cd c ->
  exists attrs accuracy,
    cd_osclass cd = Some attrs /\
    attrs !! "vendor" = Some (NmapOSClass.vendor c) /\
    attrs !! "osfamily" = Some (NmapOSClass.osfamily c) /\
    attrs !! "accuracy" = Some accuracy /\
    NmapOSClass.accuracy c = py_int accuracy /\
    NmapOSClass.osgen c = default (PStr "") (attrs !! "osgen") /\
    NmapOSClass.type c = default (PStr "") (attrs !! "type") /\
    cd_cpe cd = Some (map CPE.cpestring (NmapOSClass.cpelist c)).
Proof.
  unfold constructs. intros H.
  destruct (cd_osclass cd) as [attrs|] eqn:Hattrs.
  2:{ rewrite (NmapOSClass_init_no_osclass cd Hattrs) in H. discriminate. }
  destruct (omits_or_has_all class_required attrs) as [Homit|Hall].
  { rewrite (NmapOSClass_init_omits cd attrs Hattrs Homit) in H. discriminate. }
  destruct (cd_cpe cd) as [cpes|] eqn:Hcpe.
  2:{ rewrite (NmapOSClass_init_no_cpe cd attrs Hattrs Hall Hcpe) in H.
      discriminate. }
  destruct (Hall "vendor") as [v Hv]; [unfold class_required; set_solver|].
  destruct (Hall "osfamily") as [f Hf]; [unfold class_required; set_solver|].
  destruct (Hall "accuracy") as [a Ha]; [unfold class_required; set_solver|].
  rewrite (NmapOSClass_init_ok cd attrs cpes v f a Hattrs Hcpe Hv Hf Ha) in H.
  injection H as <-. exists attrs, a. simpl.
  rewrite map_cpestring_init. repeat split; assumption || reflexivity.
Qed.

Lemma class_object_gives_back_record_witness :
  exists attrs accuracy,
    cd_osclass linux_class = Some attrs /\
    attrs !! "vendor" = Some (NmapOSClass.vendor linux_class_obj) /\
    attrs !! "osfamily" = Some (NmapOSClass.osfamily linux_class_obj) /\
    attrs !! "accuracy" = Some accuracy /\
    NmapOSClass.accuracy linux_class_obj = py_int accuracy /\
    NmapOSClass.osgen linux_class_obj = default (PStr "") (attrs !! "osgen") /\
    NmapOSClass.type linux_class_obj = default (PStr "") (attrs !! "type") /\
    cd_cpe linux_class =
      Some (map CPE.cpestring (NmapOSClass.cpelist linux_class_obj)).
Proof.
  exact (class_object_gives_back_record linux_class linux_class_obj eq_refl).
Defined.

Lemma contains_insert_ne (attrs : gmap string pyval) (k k' : string) (v : pyval) :
  k <> k' -> contains (<[k := v]> attrs) k' = contains attrs k'.
Proof. intros Hne. unfold contains. rewrite lookup_insert_ne by exact Hne. reflexivity. Qed.

Lemma getitem_insert_ne (attrs : gmap string pyval) (k k' : string) (v : pyval) :
  k <> k' -> getitem (<[k := v]> attrs) k' = getitem attrs k'.
Proof. intros Hne. unfold getitem. rewrite lookup_insert_ne by exact Hne. reflexivity. Qed.

(** X7. [NmapOSClass] reads no attribute but vendor, osfamily, accuracy,
    osgen and type: binding any other key in the attributes of a class
    record changes neither the object built nor the error raised. *)
Theorem class_ignores_other_attributes (attrs : gmap string pyval)
    (cpes : option (list string)) (k : string) (v : pyval) :
  k ∉ class_keys ->
  NmapOSClass.__init__ {| cd_osclass := Some (<[k := v]> attrs); cd_cpe := cpes |}
  = NmapOSClass.__init__ {| cd_osclass := Some attrs; cd_cpe := cpes |}.
Proof.
  intros Hk. unfold class_keys in Hk.
  assert (k <> "vendor" /\ k <> "osfamily" /\ k <> "accuracy" /\
          k <> "osgen" /\ k <> "type") as (H1 & H2 & H3 & H4 & H5).
  { repeat split; intros ->; apply Hk; set_solver. }
  unfold NmapOSClass.__init__. simpl.
  rewrite !contains_insert_ne, !getitem_insert_ne by assumption. reflexivity.
Qed.

Lemma class_ignores_other_attributes_witness :
  NmapOSClass.__init__
    {| cd_osclass := Some (<["comment" := PStr "guess"]> linux_attrs);
       cd_cpe := Some [] |}
  = NmapOSClass.__init__ {| cd_osclass := Some linux_attrs; cd_cpe := Some [] |}.
Proof.
  apply (class_ignores_other_attributes linux_attrs (Some []) "comment"
           (PStr "guess")).
  unfold class_keys. intros H.
  repeat (apply elem_of_cons in H as [H|H]; [discriminate|]). inversion H.
Defined.

(** X8. [NmapOSMatch] reads no attribute but name, line and accuracy:
    binding any other key in the attributes of a match record changes
    neither the object built nor the error raised. A match record
    without ['osclasses'] key is handled as one whose ['osclasses'] is
    the empty list. *)
Theorem match_ignores_other_attributes (attrs : gmap string pyval)
    (nested_classes : option (list osclass_dict)) (k : string) (v : pyval) :
  k ∉ match_required ->
  NmapOSMatch.__init__
    {| md_osmatch := Some (<[k := v]> attrs); md_osclasses := nested_classes |}
  = NmapOSMatch.__init__
      {| md_osmatch := Some attrs; md_osclasses := nested_classes |}
  /\ NmapOSMatch.__init__ {| md_osmatch := Some attrs; md_osclasses := None |}
     = NmapOSMatch.__init__ {| md_osmatch := Some attrs; md_osclasses := Some [] |}.
Proof.
  intros Hk. unfold match_required in Hk.
  assert (k <> "name" /\ k <> "line" /\ k <> "accuracy") as (H1 & H2 & H3).
  { repeat split; intros ->; apply Hk; set_solver. }
  split; [|reflexivity].
  unfold NmapOSMatch.__init__. simpl.
  rewrite !contains_insert_ne, !getitem_insert_ne by assumption. reflexivity.
Qed.

Lemma match_ignores_other_attributes_witness :
  NmapOSMatch.__init__
    {| md_osmatch := Some (<["comment" := PStr "guess"]> linux_3x_attrs);
       md_osclasses := Some [linux_class] |}
  = NmapOSMatch.__init__
      {| md_osmatch := Some linux_3x_attrs; md_osclasses := Some [linux_class] |}
  /\ NmapOSMatch.__init__ {| md_osmatch := Some linux_3x_attrs; md_osclasses := None |}
     = NmapOSMatch.__init__
         {| md_osmatch := Some linux_3x_attrs; md_osclasses := Some [] |}.
Proof.
  apply (match_ignores_other_attributes linux_3x_attrs (Some [linux_class])
           "comment" (PStr "guess")).
  unfold match_required. intros H.
  repeat (apply elem_of_cons in H as [H|H]; [discriminate|]). inversion H.
Defined.

(** ** The exceptions of the constructors *)

Lemma NmapOSClass_init_cases (cd : osclass_dict) :
  (cd_osclass cd = None /\ NmapOSClass.__init__ cd = inl (KeyError "osclass"))
  \/ (exists attrs, cd_osclass cd = Some attrs /\
        omits_one_of class_required attrs /\
        NmapOSClass.__init__ cd =
          inl (Exception "Wrong osclass structure: missing required key"))
  \/ (exists attrs, cd_osclass cd = Some attrs /\
        has_all_of class_required attrs /\ cd_cpe cd = None /\
        NmapOSClass.__init__ cd = inl (KeyError "cpe"))
  \/ (exists c, NmapOSClass.__init__ cd = inr c).
Proof.
  destruct (cd_osclass cd) as [attrs|] eqn:Hattrs.
  2:{ left. split; [reflexivity|]. apply NmapOSClass_init_no_osclass, Hattrs. }
  right. destruct (omits_or_has_all class_required attrs) as [Homit|Hall].
  { left. exists attrs. repeat split; try assumption.
    apply (NmapOSClass_init_omits cd attrs Hattrs Homit). }
  right. destruct (cd_cpe cd) as [cpes|] eqn:Hcpe.
  - right.
    destruct (Hall "vendor") as [v Hv]; [unfold class_required; set_solver|].
    destruct (Hall "osfamily") as [f Hf]; [unfold class_required; set_solver|].
    destruct (Hall "accuracy") as [a Ha]; [unfold class_required; set_solver|].
    eexists. apply (NmapOSClass_init_ok cd attrs cpes v f a Hattrs Hcpe Hv Hf Ha).
  - left. exists attrs. repeat split; try assumption.
    apply (NmapOSClass_init_no_cpe cd attrs Hattrs Hall Hcpe).
Qed.

(** X9. [NmapOSClass] raises one of three exceptions and no other. It
    raises the key error of ['osclass'] exactly when the record has no
    ['osclass'] key, and the key error of ['cpe'] exactly when the
    attributes are present with vendor, osfamily and accuracy and the
    record has no ['cpe'] key: a missing required attribute is reported
    before a missing ['cpe'] key. *)
Theorem class_constructor_exceptions (cd : osclass_dict) :
  (NmapOSClass.__init__ cd = inl (KeyError "osclass") <-> cd_osclass cd = None)
  /\ (NmapOSClass.__init__ cd = inl (KeyError "cpe") <->
      exists attrs, cd_osclass cd = Some attrs /\
        has_all_of class_required attrs /\ cd_cpe cd = None)
  /\ (forall e, NmapOSClass.__init__ cd = inl e ->
        e = KeyError "osclass" \/
        e = Exception "Wrong osclass structure: missing required key" \/
        e = KeyError "cpe").
Proof.
  destruct (NmapOSClass_init_cases cd)
    as [(Hnone & H)|[(attrs & Hattrs & Homit & H)
       |[(attrs & Hattrs & Hall & Hcpe & H)|(c & H)]]];
    rewrite H; (split; [|split]).
  - split; [intros _; exact Hnone | reflexivity].
  - split; [discriminate|]. intros (attrs & Hattrs & _). congruence.
  - intros e [= <-]. left. reflexivity.
  - split; [discriminate | congruence].
  - split; [discriminate|]. intros (attrs' & Hattrs' & Hall & _).
    assert (attrs' = attrs) as -> by congruence.
    exfalso. exact (omits_not_has_all class_required attrs Homit Hall).
  - intros e [= <-]. right. left. reflexivity.
  - split; [discriminate | congruence].
  - split; [|reflexivity]. intros _. exists attrs. repeat split; assumption.
  - intros e [= <-]. right. right. reflexivity.
  - split; [discriminate|]. intros Hnone. unfold NmapOSClass.__init__ in H.
    rewrite Hnone in H. discriminate.
  - split; [discriminate|]. intros (attrs & Hattrs & Hall & Hcpe).
    rewrite (NmapOSClass_init_no_cpe cd attrs Hattrs Hall Hcpe) in H.
    discriminate.
  - discriminate.
Qed.

Lemma NmapOSMatch_init_cases (md : osmatch_dict) :
  (md_osmatch md = None /\ NmapOSMatch.__init__ md = inl (KeyError "osmatch"))
  \/ (exists attrs, md_osmatch md = Some attrs /\
        omits_one_of match_required attrs /\
        NmapOSMatch.__init__ md =
          inl (Exception "Cannot create NmapOSClass: missing required key"))
  \/ (exists attrs, md_osmatch md = Some attrs /\
        has_all_of match_required attrs /\
        (exists cd, cd ∈ nested md /\ raises (NmapOSClass.__init__ cd)) /\
        NmapOSMatch.__init__ md = inl nested_class_error)
  \/ (exists m, NmapOSMatch.__init__ md = inr m).
Proof.
  destruct (md_osmatch md) as [attrs|] eqn:Hattrs.
  2:{ left. split; [reflexivity|]. apply NmapOSMatch_init_no_osmatch, Hattrs. }
  right. destruct (omits_or_has_all match_required attrs) as [Homit|Hall].
  { left. exists attrs. repeat split; try assumption.
    apply (NmapOSMatch_init_omits md attrs Hattrs Homit). }
  right.
  destruct (NmapOSMatch_init_has_all md attrs Hattrs Hall)
    as (n & l & a & _ & _ & _ & Heq).
  destruct (NmapOSMatch.append_osclasses [] (nested md)) as [acc' [e|]] eqn:Hloop.
  - left. apply append_osclasses_inv in Hloop as (-> & Hcd).
    exists attrs. repeat split; assumption.
  - right. eexists. exact Heq.
Qed.

(** X10. [NmapOSMatch] raises one of three exceptions and no other: the
    key error of ['osmatch'] exactly when the record has no ['osmatch']
    key; the error of a missing required key exactly when the attributes
    lack name, line or accuracy, whatever the nested class records are;
    the error of a class that cannot be created exactly when the
    attributes have the three keys and a nested class record cannot be
    built. The key error of a nested class record never leaves it. *)
Theorem match_constructor_exceptions (md : osmatch_dict) :
  (NmapOSMatch.__init__ md = inl (KeyError "osmatch") <-> md_osmatch md = None)
  /\ (NmapOSMatch.__init__ md =
        inl (Exception "Cannot create NmapOSClass: missing required key") <->
      exists attrs, md_osmatch md = Some attrs /\
        omits_one_of match_required attrs)
  /\ (NmapOSMatch.__init__ md =
        inl (Exception "Could not create NmapOSClass object") <->
      exists attrs, md_osmatch md = Some attrs /\
        has_all_of match_required attrs /\
        exists cd, cd ∈ nested md /\ raises (NmapOSClass.__init__ cd))
  /\ (forall e, NmapOSMatch.__init__ md = inl e ->
        e = KeyError "osmatch" \/
        e = Exception "Cannot create NmapOSClass: missing required key" \/
        e = Exception "Could not create NmapOSClass object").
Proof.
  destruct (NmapOSMatch_init_cases md)
    as [(Hnone & H)|[(attrs & Hattrs & Homit & H)
       |[(attrs & Hattrs & Hall & Hcd & H)|(m & H)]]];
    rewrite H; (split; [|split; [|split]]).
  - split; [intros _; exact Hnone | reflexivity].
  - split; [discriminate|]. intros (attrs & Hattrs & _). congruence.
  - split; [discriminate|]. intros (attrs & Hattrs & _). congruence.
  - intros e [= <-]. left. reflexivity.
  - split; [discriminate | congruence].
  - split; [|reflexivity]. intros _. exists attrs. split; assumption.
  - split; [discriminate|]. intros (attrs' & Hattrs' & Hall & _).
    assert (attrs' = attrs) as -> by congruence.
    exfalso. exact (omits_not_has_all match_required attrs Homit Hall).
  - intros e [= <-]. right. left. reflexivity.
  - split; [discriminate | congruence].
  - split; [discriminate|]. intros (attrs' & Hattrs' & Homit).
    assert (attrs' = attrs) as -> by congruence.
    exfalso. exact (omits_not_has_all match_required attrs Homit Hall).
  - split; [|reflexivity]. intros _. exists attrs. repeat split; assumption.
  - intros e [= <-]. right. right. reflexivity.
  - split; [discriminate|]. intros Hnone.
    rewrite (NmapOSMatch_init_no_osmatch md Hnone) in H. discriminate.
  - split; [discriminate|]. intros (attrs & Hattrs & Homit).
    rewrite (NmapOSMatch_init_omits md attrs Hattrs Homit) in H. discriminate.
  - split; [discriminate|]. intros (attrs & Hattrs & Hall & cd & Hin & Hr).
    rewrite (NmapOSMatch_init_nested_raises md attrs cd Hattrs Hall Hin Hr) in H.
    discriminate.
  - discriminate.
Qed.

(** ** Which error the construction of a reconciler raises *)

Lemma add_osmatches_first_error (self : NmapOSFingerprint.t)
    (before after : list osmatch_dict) (md : osmatch_dict)
    (ms : list NmapOSMatch.t) (e : pyerr) :
  Forall2 builds before ms -> NmapOSMatch.__init__ md = inl e ->
  NmapOSFingerprint.add_osmatches self (before ++ md :: after) = inl e.
Proof.
  intros H He. revert self.
  induction H as [|x m before ms Hx _ IH]; intros self; simpl.
  - rewrite He. reflexivity.
  - unfold builds in Hx. rewrite Hx. simpl. apply IH.
Qed.

(** X11. The match records are built in their order and the first one
    that cannot be built ends the construction of the reconciler with
    its own error: the records after it, the orphan class records and
    the other groups are not looked at. *)
Theorem first_failing_match_error (d : osfp_data)
    (before after : list osmatch_dict) (md : osmatch_dict)
    (ms : list NmapOSMatch.t) (e : pyerr) :
  fd_osmatches d = Some (before ++ md :: after) ->
  Forall2 builds before ms -> NmapOSMatch.__init__ md = inl e ->
  NmapOSFingerprint.__init__ d = inl e.
Proof.
  intros Hd Hbefore He. rewrite NmapOSFingerprint_init_eq, Hd. simpl.
  rewrite (add_osmatches_first_error fresh before after md ms e Hbefore He).
  reflexivity.
Qed.

Lemma first_failing_match_error_witness :
  NmapOSFingerprint.__init__
    {| fd_osmatches := Some ([linux_3x] ++ nameless_match :: [linux_3x_nesting_no_cpe]);
       fd_osclasses := Some [class_no_vendor];
       fd_osfingerprints := None; fd_ports_used := None |}
  = inl (Exception "Cannot create NmapOSClass: missing required key").
Proof.
  apply (first_failing_match_error _ [linux_3x] [linux_3x_nesting_no_cpe]
           nameless_match [linux_3x_obj]).
  - reflexivity.
  - constructor; [reflexivity | constructor].
  - reflexivity.
Defined.

Lemma get_osmatch_from_object_returns (i : nat) (ms : list NmapOSMatch.t)
    (c : NmapOSClass.t) :
  Forall has_int_accuracy ms ->
  NmapOSFingerprint.get_osmatch_from i ms (OClass c) = inr None.
Proof.
  intros H. revert i. induction H as [|m ms [a Ha] _ IH]; intros i; simpl.
  - reflexivity.
  - rewrite Ha. simpl. apply IH.
Qed.

Lemma get_osmatch_from_object_int (i : nat) (ms : list NmapOSMatch.t)
    (c : NmapOSClass.t) (r : option (nat * NmapOSMatch.t)) :
  NmapOSFingerprint.get_osmatch_from i ms (OClass c) = inr r ->
  Forall has_int_accuracy ms.
Proof.
  revert i. induction ms as [|m ms IH]; intros i; simpl; [constructor|].
  destruct (NmapOSMatch.accuracy m) as [e|a] eqn:Ha; simpl; [discriminate|].
  intros H. constructor; [exists a; exact Ha | eapply IH; exact H].
Qed.

Lemma dummy_has_int_accuracy (c : NmapOSClass.t) (a : Z) :
  has_int_accuracy (dummy_osmatch c a).
Proof. exists a. reflexivity. Qed.

Lemma add_osclasses_ok (self : NmapOSFingerprint.t) (l : list osclass_dict) :
  Forall has_int_accuracy (NmapOSFingerprint.__osmatches self) ->
  Forall constructs_with_accuracy l ->
  exists self', NmapOSFingerprint.add_osclasses self l = inr self'.
Proof.
  intros Hint Hl. revert self Hint.
  induction Hl as [|cd l (c & a & Hc & Ha) _ IH]; intros self Hint; simpl.
  - eexists. reflexivity.
  - unfold constructs in Hc. rewrite Hc. simpl.
    unfold NmapOSFingerprint.get_osmatch.
    rewrite (get_osmatch_from_object_returns 0 _ c Hint). simpl.
    rewrite add_dummy_osmatch_eq, Ha. simpl. apply IH. simpl.
    apply Forall_app. split; [exact Hint|].
    constructor; [apply dummy_has_int_accuracy | constructor].
Qed.

Lemma add_osclasses_cons_int (self self' : NmapOSFingerprint.t)
    (cd : osclass_dict) (rest : list osclass_dict) :
  NmapOSFingerprint.add_osclasses self (cd :: rest) = inr self' ->
  Forall has_int_accuracy (NmapOSFingerprint.__osmatches self).
Proof.
  simpl. intros H.
  apply py_bind_inr in H as (c & _ & H).
  apply py_bind_inr in H as (found & Hfound & _).
  apply get_osmatch_from_object_int in Hfound. exact Hfound.
Qed.

Lemma placeholder_has_int_accuracy (cd : osclass_dict) (m : NmapOSMatch.t) :
  placeholder_for cd m -> has_int_accuracy m.
Proof. intros (c & a & _ & _ & ->). apply dummy_has_int_accuracy. Qed.

Lemma placeholder_constructs (l : list osclass_dict) (ds : list NmapOSMatch.t) :
  Forall2 placeholder_for l ds -> Forall constructs_with_accuracy l.
Proof.
  intros H. induction H as [|cd m l ds (c & a & Hc & Ha & _) _ IH];
    constructor; [exists c, a; split; assumption | exact IH].
Qed.

Lemma NmapOSFingerprint_init_returns_iff (d : osfp_data) :
  (exists fp, NmapOSFingerprint.__init__ d = inr fp) <->
  exists ms,
    Forall2 builds (default [] (fd_osmatches d)) ms /\
    Forall constructs_with_accuracy (default [] (fd_osclasses d)) /\
    (default [] (fd_osclasses d) <> [] -> Forall has_int_accuracy ms).
Proof.
  split.
  - intros [fp H]. rewrite NmapOSFingerprint_init_eq in H.
    apply py_bind_inr in H as (self1 & H1 & H).
    apply py_bind_inr in H as (self2 & H2 & _).
    apply add_osmatches_inv in H1 as (ms & Hms & ->).
    exists ms. split; [exact Hms|]. split.
    + apply add_osclasses_inv in H2 as (ds & Hds & _).
      exact (placeholder_constructs _ _ Hds).
    + intros Hne. destruct (default [] (fd_osclasses d)) as [|cd rest];
        [congruence|].
      apply add_osclasses_cons_int in H2. exact H2.
  - intros (ms & Hms & Hcs & Hint). rewrite NmapOSFingerprint_init_eq.
    rewrite (add_osmatches_ok fresh _ ms Hms). simpl.
    destruct (default [] (fd_osclasses d)) as [|cd rest] eqn:Hl.
    + simpl. eexists. reflexivity.
    + destruct (add_osclasses_ok
                  (NmapOSFingerprint.set_osmatches fresh ms) (cd :: rest))
        as [self2 H2]; [apply Hint; discriminate | exact Hcs |].
      simpl in H2 |- *. rewrite H2. simpl. eexists. reflexivity.
Qed.

(** X12. The construction of a reconciler returns exactly when every
    match record can be built, every orphan class record can be built
    into a class whose accuracy is an integer, and, if there is any
    orphan class record, the accuracy of every match built is an integer
    too. *)
Theorem construction_returns_iff (d : osfp_data) :
  (exists fp, NmapOSFingerprint.__init__ d = inr fp) <->
  exists ms,
    Forall2 builds (default [] (fd_osmatches d)) ms /\
    Forall constructs_with_accuracy (default [] (fd_osclasses d)) /\
    (default [] (fd_osclasses d) <> [] -> Forall has_int_accuracy ms).
Proof. exact (NmapOSFingerprint_init_returns_iff d). Qed.

Lemma construction_returns_iff_witness :
  (exists fp,
     NmapOSFingerprint.__init__
       {| fd_osmatches := Some [vague_match]; fd_osclasses := None;
          fd_osfingerprints := None; fd_ports_used := None |} = inr fp)
  /\ ~ (exists fp,
          NmapOSFingerprint.__init__
            {| fd_osmatches := Some [vague_match];
               fd_osclasses := Some [linux_class];
               fd_osfingerprints := None; fd_ports_used := None |} = inr fp).
Proof.
  split.
  - apply (proj2 (construction_returns_iff _)). exists [vague_obj].
    split; [constructor; [reflexivity | constructor]|].
    split; [constructor|]. intros H. exfalso. apply H. reflexivity.
  - intros H. apply (proj1 (construction_returns_iff _)) in H.
    destruct H as (ms & Hms & _ & Hint). simpl in Hms, Hint.
    inversion Hms as [|md m l ms' Hb Hrest]; subst.
    inversion Hrest; subst.
    assert (Hall : Forall has_int_accuracy [m]) by (apply Hint; discriminate).
    inversion Hall as [|m' ms'' [a Ha] _]; subst.
    vm_compute in Hb. injection Hb as <-. vm_compute in Ha. discriminate.
Defined.

(** ** Accuracies that are not numbers *)

Lemma builds_accuracy (md : osmatch_dict) (m : NmapOSMatch.t)
    (attrs : gmap string pyval) (v : pyval) :
  builds md m -> md_osmatch md = Some attrs -> attrs !! "accuracy" = Some v ->
  NmapOSMatch.accuracy m = py_int v.
Proof.
  intros Hb Hattrs Hv.
  apply NmapOSMatch_init_inv in Hb as (attrs' & Hattrs' & _ & _ & Ha & _).
  unfold NmapOSMatch.accuracy. congruence.
Qed.

(** X13. A report holding a match record whose accuracy is not an
    integer and at least one orphan class record cannot be built into a
    reconciler: looking for the match of the first class reads the
    accuracy of the stored matches. Alone, such a match record, with
    name, line and accuracy and without ['osclasses'] key, is built,
    [NmapOSMatch] not looking at the value of accuracy, and the accuracy
    accessor of the object raises. *)
Theorem orphan_class_reads_match_accuracies (d : osfp_data)
    (l : list osmatch_dict) (md : osmatch_dict) (attrs : gmap string pyval)
    (v : pyval) (cd : osclass_dict) (cs : list osclass_dict) :
  fd_osmatches d = Some l -> md ∈ l ->
  md_osmatch md = Some attrs -> attrs !! "accuracy" = Some v ->
  raises (py_int v) ->
  fd_osclasses d = Some (cd :: cs) ->
  raises (NmapOSFingerprint.__init__ d)
  /\ (has_all_of match_required attrs -> md_osclasses md = None ->
      exists m, NmapOSMatch.__init__ md = inr m /\
                raises (NmapOSMatch.accuracy m)).
Proof.
  intros Hl Hin Hattrs Hv Hraises Hcs. split.
  - destruct (raises_or_returns (NmapOSFingerprint.__init__ d))
      as [H|[fp H]]; [exact H|exfalso].
    assert (Hex : exists fp, NmapOSFingerprint.__init__ d = inr fp) by eauto.
    apply NmapOSFingerprint_init_returns_iff in Hex as (ms & Hms & _ & Hint).
    rewrite Hl in Hms. rewrite Hcs in Hint. simpl in Hms, Hint.
    specialize (Hint ltac:(discriminate)).
    apply list_elem_of_lookup in Hin as [i Hi].
    destruct (Forall2_lookup_l _ _ _ _ _ Hms Hi) as (m & Hm & Hb).
    rewrite Forall_forall in Hint.
    destruct (Hint m) as [a Ha]; [apply list_elem_of_lookup; eauto|].
    rewrite (builds_accuracy md m attrs v Hb Hattrs Hv) in Ha.
    destruct Hraises as [e He]. congruence.
  - intros Hall Hnone.
    destruct (NmapOSMatch_init_has_all md attrs Hattrs Hall)
      as (n & ln & a & _ & _ & Ha & Heq).
    unfold nested in Heq. rewrite Hnone in Heq. simpl in Heq.
    eexists. split; [exact Heq|]. unfold NmapOSMatch.accuracy. simpl.
    assert (a = v) as -> by congruence. exact Hraises.
Qed.

Lemma orphan_class_reads_match_accuracies_witness :
  raises (NmapOSFingerprint.__init__
            {| fd_osmatches := Some [linux_3x; vague_match];
               fd_osclasses := Some [cisco_class];
               fd_osfingerprints := None; fd_ports_used := None |})
  /\ (has_all_of match_required vague_attrs -> md_osclasses vague_match = None ->
      exists m, NmapOSMatch.__init__ vague_match = inr m /\
                raises (NmapOSMatch.accuracy m)).
Proof.
  apply (orphan_class_reads_match_accuracies _ [linux_3x; vague_match]
           vague_match vague_attrs (PStr "high") cisco_class []).
  - reflexivity.
  - apply list_elem_of_further, list_elem_of_here.
  - reflexivity.
  - reflexivity.
  - exists (ValueError "invalid literal for int() with base 10: 'high'").
    reflexivity.
  - reflexivity.
Defined.

(** ** Matches stored in a reconciler *)

Lemma stored_match_cases (d : osfp_data) (fp : NmapOSFingerprint.t)
    (m : NmapOSMatch.t) :
  NmapOSFingerprint.__init__ d = inr fp ->
  m ∈ NmapOSFingerprint.__osmatches fp ->
  (exists md, md ∈ default [] (fd_osmatches d) /\ builds md m)
  \/ (exists cd, cd ∈ default [] (fd_osclasses d) /\ placeholder_for cd m).
Proof.
  intros Hinit Hin.
  apply NmapOSFingerprint_init_inv in Hinit as (ms & ds & Hms & Hds & ->).
  simpl in Hin. apply elem_of_app in Hin as [Hin|Hin];
    apply list_elem_of_lookup in Hin as [i Hi].
  - left. destruct (Forall2_lookup_r _ _ _ _ _ Hms Hi) as (md & Hmd & Hb).
    exists md. split; [apply list_elem_of_lookup; eauto | exact Hb].
  - right. destruct (Forall2_lookup_r _ _ _ _ _ Hds Hi) as (cd & Hcd & Hp).
    exists cd. split; [apply list_elem_of_lookup; eauto | exact Hp].
Qed.

Lemma add_osclass_unset_raises (m : NmapOSMatch.t) (x : pyobj) :
  NmapOSMatch._NmapOSMatch__osclasses m = None ->
  raises (NmapOSMatch.add_osclass m x).
Proof.
  intros Hunset. unfold NmapOSMatch.add_osclass.
  destruct (NmapOSMatch.contains_osclass x) as [e|[|]]; simpl.
  - eexists. reflexivity.
  - rewrite Hunset. eexists. reflexivity.
  - eexists. reflexivity.
Qed.

(** X14. No match stored in a reconciler that was built accepts a class:
    whether it was built from a match record or made up for an orphan
    class, [add_osclass] raises on it for every argument, so its class
    list is the one it was built with. *)
Theorem stored_match_rejects_add_osclass (d : osfp_data)
    (fp : NmapOSFingerprint.t) (m : NmapOSMatch.t) (x : pyobj) :
  NmapOSFingerprint.__init__ d = inr fp ->
  m ∈ NmapOSFingerprint.__osmatches fp ->
  raises (NmapOSMatch.add_osclass m x).
Proof.
  intros Hinit Hin. apply add_osclass_unset_raises.
  destruct (stored_match_cases d fp m Hinit Hin)
    as [(md & _ & Hb)|(cd & _ & c & a & _ & _ & ->)]; [|reflexivity].
  apply NmapOSMatch_init_inv in Hb as (_ & _ & _ & _ & _ & _ & Hunset).
  exact Hunset.
Qed.

Lemma stored_match_rejects_add_osclass_witness :
  raises (NmapOSMatch.add_osclass (dummy_osmatch cisco_class_obj 70)
            (ODict cisco_class)).
Proof.
  apply (stored_match_rejects_add_osclass report_other_accuracy two_matches).
  - reflexivity.
  - apply list_elem_of_further, list_elem_of_here.
Defined.

Lemma stored_matches_int_accuracy (d : osfp_data) (fp : NmapOSFingerprint.t)
    (cd : osclass_dict) (cs : list osclass_dict) :
  NmapOSFingerprint.__init__ d = inr fp ->
  fd_osclasses d = Some (cd :: cs) ->
  Forall has_int_accuracy (NmapOSFingerprint.__osmatches fp).
Proof.
  intros Hinit Hcs.
  assert (Hex : exists fp, NmapOSFingerprint.__init__ d = inr fp) by eauto.
  apply NmapOSFingerprint_init_returns_iff in Hex as (ms' & Hms' & _ & Hint).
  apply NmapOSFingerprint_init_inv in Hinit as (ms & ds & Hms & Hds & ->).
  simpl. apply Forall_app. split.
  - rewrite Hcs in Hint. specialize (Hint ltac:(discriminate)).
    rewrite Forall_forall in *. intros m Hm.
    apply list_elem_of_lookup in Hm as [i Hi].
    destruct (Forall2_lookup_r _ _ _ _ _ Hms Hi) as (md & Hmd & Hb).
    destruct (Forall2_lookup_l _ _ _ _ _ Hms' Hmd) as (m' & Hm' & Hb').
    unfold builds in Hb, Hb'. assert (m' = m) as <- by congruence.
    apply Hint, list_elem_of_lookup. eauto.
  - clear Hms Hms' Hint. induction Hds as [|x m l ds Hp _ IH]; constructor;
      [exact (placeholder_has_int_accuracy x m Hp) | exact IH].
Qed.

(** X15. In a reconciler built from a report that has at least one
    orphan class record every stored accuracy is an integer, so reading
    the [osmatches] property returns, and so does the deprecated
    [osmatch] for every threshold. *)
Theorem queries_return_after_orphan_class (d : osfp_data)
    (fp : NmapOSFingerprint.t) (cd : osclass_dict) (cs : list osclass_dict) :
  NmapOSFingerprint.__init__ d = inr fp ->
  fd_osclasses d = Some (cd :: cs) ->
  NmapOSFingerprint.osmatches fp =
    inr (List.filter (accuracy_at_least 0) (NmapOSFingerprint.__osmatches fp))
  /\ forall x,
       snd (NmapOSFingerprint.osmatch fp x) =
         inr (map NmapOSMatch.name
                (List.filter (accuracy_at_least x)
                   (NmapOSFingerprint.__osmatches fp))).
Proof.
  intros Hinit Hcs.
  pose proof (stored_matches_int_accuracy d fp cd cs Hinit Hcs) as Hint.
  split.
  - unfold NmapOSFingerprint.osmatches. apply osmatches_fget_filter, Hint.
  - intros x.
    pose proof (osmatch_loop_names [] (NmapOSFingerprint.__osmatches fp) x) as Hn.
    pose proof (osmatches_fget_filter fp x Hint) as Hf.
    unfold NmapOSFingerprint.osmatches_fget in Hf. rewrite Hf in Hn.
    exact Hn.
Qed.

Lemma queries_return_after_orphan_class_witness :
  NmapOSFingerprint.osmatches two_matches =
    inr (List.filter (accuracy_at_least 0)
           (NmapOSFingerprint.__osmatches two_matches))
  /\ forall x,
       snd (NmapOSFingerprint.osmatch two_matches x) =
         inr (map NmapOSMatch.name
                (List.filter (accuracy_at_least x)
                   (NmapOSFingerprint.__osmatches two_matches))).
Proof.
  exact (queries_return_after_orphan_class report_other_accuracy two_matches
           cisco_class [] eq_refl eq_refl).
Defined.

(** ** Used ports *)

(** X16. The ['ports_used'] group is stored as it comes, no list when it
    is absent, and plays no part in the rest of the construction:
    replacing it changes neither whether the construction returns nor
    the matches and fingerprints stored. *)
Theorem ports_used_stored_as_given (d : osfp_data) (fp : NmapOSFingerprint.t)
    (g : option (list (gmap string pyval))) :
  NmapOSFingerprint.__init__ d = inr fp ->
  NmapOSFingerprint.__ports_used fp = default [] (fd_ports_used d)
  /\ NmapOSFingerprint.__init__ (with_ports_used d g) =
       inr {| NmapOSFingerprint.__osmatches := NmapOSFingerprint.__osmatches fp;
              NmapOSFingerprint.__ports_used := default [] g;
              NmapOSFingerprint.__fingerprints :=
                NmapOSFingerprint.__fingerprints fp |}.
Proof.
  intros Hinit. split.
  - apply NmapOSFingerprint_init_inv in Hinit as (ms & ds & _ & _ & ->).
    reflexivity.
  - rewrite NmapOSFingerprint_init_eq in Hinit.
    rewrite NmapOSFingerprint_init_eq. simpl.
    apply py_bind_inr in Hinit as (self1 & H1 & Hinit).
    apply py_bind_inr in Hinit as (self2 & H2 & [= <-]).
    rewrite H1. simpl. rewrite H2. simpl.
    apply add_osmatches_inv in H1 as (ms & _ & ->).
    apply add_osclasses_inv in H2 as (ds & _ & ->).
    reflexivity.
Qed.

Lemma ports_used_stored_as_given_witness :
  NmapOSFingerprint.__ports_used two_matches = []
  /\ NmapOSFingerprint.__init__
       (with_ports_used report_other_accuracy
          (Some [ {["portid" := PStr "22"]} ])) =
       inr {| NmapOSFingerprint.__osmatches :=
                NmapOSFingerprint.__osmatches two_matches;
              NmapOSFingerprint.__ports_used := [ {["portid" := PStr "22"]} ];
              NmapOSFingerprint.__fingerprints :=
                NmapOSFingerprint.__fingerprints two_matches |}.
Proof.
  exact (ports_used_stored_as_given report_other_accuracy two_matches
           (Some [ {["portid" := PStr "22"]} ]) eq_refl).
Defined.

(** ** Texts *)

Lemma string_app_assoc (s1 s2 s3 : string) :
  (s1 +:+ s2) +:+ s3 = s1 +:+ (s2 +:+ s3).
Proof.
  induction s1 as [|a s1 IH]; [reflexivity|].
  change (String a ((s1 +:+ s2) +:+ s3) = String a (s1 +:+ (s2 +:+ s3))).
  rewrite IH. reflexivity.
Qed.

Lemma string_app_nil_r (s : string) : s +:+ "" = s.
Proof.
  induction s as [|a s IH]; [reflexivity|].
  change (String a (s +:+ "") = String a s). rewrite IH. reflexivity.
Qed.

Lemma repr_cpes_glue (rval : string) (cpelist : list CPE.t) :
  NmapOSClass.repr_cpes rval cpelist = rval +:+ glue (map cpe_line cpelist).
Proof.
  revert rval. induction cpelist as [|cpe rest IH]; intros rval; simpl.
  - rewrite string_app_nil_r. reflexivity.
  - rewrite IH, string_app_assoc. reflexivity.
Qed.

(** X17. The text of a class whose generation is a text is its header
    "type: vendor, osfamily", then the generation between parentheses
    unless it is empty, then one line per CPE, in order. When the
    generation is an integer, [__repr__] raises a type error: it takes
    the length of the generation. *)
Theorem class_repr_text (c : NmapOSClass.t) :
  (forall gen : string,
     NmapOSClass.osgen c = PStr gen ->
     NmapOSClass.__repr__ c =
       inr (class_header c +:+ generation_suffix gen +:+
            glue (map cpe_line (NmapOSClass.cpelist c))))
  /\ (forall z : Z,
        NmapOSClass.osgen c = PInt z ->
        NmapOSClass.__repr__ c =
          inl (TypeError "object of type 'int' has no len()")).
Proof.
  split.
  - intros gen Hgen. unfold NmapOSClass.__repr__. rewrite Hgen. simpl.
    rewrite repr_cpes_glue. f_equal.
    destruct gen as [|a gen]; simpl.
    + reflexivity.
    + unfold class_header. rewrite !string_app_assoc. reflexivity.
  - intros z Hz. unfold NmapOSClass.__repr__. rewrite Hz. reflexivity.
Qed.

Lemma class_repr_text_witness :
  NmapOSClass.__repr__ linux_26_obj =
    inr ("general purpose: Linux, Linux(2.6.X)" +:+
         crlf +:+ "    |__ cpe:/o:linux:kernel:2.6" +:+
         crlf +:+ "    |__ cpe:/o:linux").
Proof.
  exact (proj1 (class_repr_text linux_26_obj) "2.6.X" eq_refl).
Defined.

Lemma repr_osclasses_glue (rval : string) (cs : list NmapOSClass.t)
    (texts : list string) :
  class_texts cs texts ->
  NmapOSMatch.repr_osclasses rval cs = inr (rval +:+ glue (map osclass_line texts)).
Proof.
  intros H. revert rval. induction H as [|c text cs texts Hc _ IH];
    intros rval; simpl.
  - rewrite string_app_nil_r. reflexivity.
  - rewrite Hc. simpl. rewrite IH, string_app_assoc. reflexivity.
Qed.

Lemma repr_osclasses_raises (rval : string) (cs : list NmapOSClass.t) :
  raises (NmapOSMatch.repr_osclasses rval cs) <->
  exists c, c ∈ cs /\ raises (NmapOSClass.__repr__ c).
Proof.
  revert rval. induction cs as [|c cs IH]; intros rval; simpl.
  - split; [intros [e He]; discriminate | intros (c & Hc & _); inversion Hc].
  - destruct (NmapOSClass.__repr__ c) as [e|text] eqn:Hc; simpl.
    + split; [|intros _; eexists; reflexivity].
      intros _. exists c. split; [left|]. exists e. exact Hc.
    + rewrite IH. split.
      * intros (c' & Hin & Hr). exists c'. split; [right; exact Hin | exact Hr].
      * intros (c' & Hin & Hr). apply elem_of_cons in Hin as [->|Hin].
        -- destruct Hr as [e He]. congruence.
        -- exists c'. split; assumption.
Qed.

(** X18. The text of a match whose accuracy is the integer [a] is
    "name: a", then one line per class holding the text of that class,
    in order. [__repr__] raises exactly when the accuracy is not an
    integer or the text of one of the classes cannot be made. *)
Theorem match_repr_text (m : NmapOSMatch.t) :
  (forall (a : Z) (texts : list string),
     NmapOSMatch.accuracy m = inr a ->
     class_texts (NmapOSMatch.osclasses m) texts ->
     NmapOSMatch.__repr__ m =
       inr (py_str (NmapOSMatch.name m) +:+ ": " +:+ py_str (PInt a) +:+
            glue (map osclass_line texts)))
  /\ (raises (NmapOSMatch.__repr__ m) <->
      raises (NmapOSMatch.accuracy m) \/
      exists c, c ∈ NmapOSMatch.osclasses m /\ raises (NmapOSClass.__repr__ c)).
Proof.
  split.
  - intros a texts Ha Htexts. unfold NmapOSMatch.__repr__. rewrite Ha. simpl.
    rewrite (repr_osclasses_glue _ _ texts Htexts), !string_app_assoc.
    reflexivity.
  - unfold NmapOSMatch.__repr__.
    destruct (NmapOSMatch.accuracy m) as [e|a]; simpl.
    + split; [intros _; left|intros _]; eexists; reflexivity.
    + rewrite repr_osclasses_raises. unfold NmapOSMatch.osclasses. split.
      * intros H. right. exact H.
      * intros [[e He]|H]; [discriminate | exact H].
Qed.

Lemma match_repr_text_witness :
  NmapOSMatch.__repr__ linux_26_match_obj
  = inr ("Linux 2.6: 95" +:+ crlf +:+
         "  |__ os class: general purpose: Linux, Linux").
Proof.
  assert (Htexts : class_texts (NmapOSMatch.osclasses linux_26_match_obj)
                     ["general purpose: Linux, Linux"]).
  { constructor; [reflexivity | constructor]. }
  exact (proj1 (match_repr_text linux_26_match_obj) 95%Z
           ["general purpose: Linux, Linux"] eq_refl Htexts).
Defined.

Lemma repr_osmatches_glue (rval : string) (ms : list NmapOSMatch.t)
    (texts : list string) :
  match_texts ms texts ->
  NmapOSFingerprint.repr_osmatches rval ms =
    inr (rval +:+ glue (map osmatch_line texts)).
Proof.
  intros H. revert rval. induction H as [|m text ms texts Hm _ IH];
    intros rval; simpl.
  - rewrite string_app_nil_r. reflexivity.
  - rewrite Hm. simpl. rewrite IH, string_app_assoc. reflexivity.
Qed.

(** X19. The text of a reconciler is one line per match that reading
    the [osmatches] property returns, holding the text of that match,
    followed by "Fingerprints: " and nothing more: the stored
    fingerprints and ports do not show in it, and the text of a
    reconciler without match is "Fingerprints: ". *)
Theorem reconciler_repr_text (self : NmapOSFingerprint.t) :
  (forall (ms : list NmapOSMatch.t) (texts : list string),
     NmapOSFingerprint.osmatches self = inr ms -> match_texts ms texts ->
     NmapOSFingerprint.__repr__ self =
       inr (glue (map osmatch_line texts) +:+ "Fingerprints: "))
  /\ (forall (ports : list (gmap string pyval)) (fps : list string),
        NmapOSFingerprint.__repr__
          {| NmapOSFingerprint.__osmatches := NmapOSFingerprint.__osmatches self;
             NmapOSFingerprint.__ports_used := ports;
             NmapOSFingerprint.__fingerprints := fps |}
        = NmapOSFingerprint.__repr__ self)
  /\ (NmapOSFingerprint.__osmatches self = [] ->
      NmapOSFingerprint.__repr__ self = inr "Fingerprints: ").
Proof.
  split; [|split].
  - intros ms texts Hms Htexts. unfold NmapOSFingerprint.__repr__.
    rewrite Hms. simpl. rewrite (repr_osmatches_glue _ _ texts Htexts).
    reflexivity.
  - intros ports fps. reflexivity.
  - intros Hnil. unfold NmapOSFingerprint.__repr__, NmapOSFingerprint.osmatches,
      NmapOSFingerprint.osmatches_fget. rewrite Hnil. reflexivity.
Qed.

Lemma reconciler_repr_text_witness :
  NmapOSFingerprint.__repr__ nested_reconciler =
    inr (crlf +:+ "Linux 3.x: 95" +:+ crlf +:+
         "  |__ os class: general purpose: Linux, Linux" +:+
         crlf +:+ "router:Cisco:IOS: 70" +:+ "Fingerprints: ")
  /\ NmapOSFingerprint.__repr__ fresh = inr "Fingerprints: ".
Proof.
  assert (Htexts : match_texts (NmapOSFingerprint.__osmatches nested_reconciler)
                     [ "Linux 3.x: 95" +:+ crlf +:+
                       "  |__ os class: general purpose: Linux, Linux";
                       "router:Cisco:IOS: 70" ]).
  { constructor; [reflexivity | constructor; [reflexivity | constructor]]. }
  split.
  - exact (proj1 (reconciler_repr_text nested_reconciler)
             (NmapOSFingerprint.__osmatches nested_reconciler) _ eq_refl Htexts).
  - exact (proj2 (proj2 (reconciler_repr_text fresh)) eq_refl).
Defined.

(** ** Looking a match up by accuracy *)

Lemma get_osmatch_from_integer_total (i : nat) (ms : list NmapOSMatch.t) (z : Z) :
  Forall has_int_accuracy ms ->
  exists r, NmapOSFingerprint.get_osmatch_from i ms (OInt z) = inr r.
Proof.
  intros H. revert i. induction H as [|m ms [a Ha] _ IH]; intros i; simpl.
  - eexists. reflexivity.
  - rewrite Ha. simpl. destruct (a =? z)%Z; [eexists; reflexivity | apply IH].
Qed.

(** X20. When every stored accuracy is an integer, [get_osmatch] called
    with an integer returns, and it returns no match exactly when no
    stored match has that accuracy. *)
Theorem get_osmatch_integer_none_iff (self : NmapOSFingerprint.t) (z : Z) :
  Forall has_int_accuracy (NmapOSFingerprint.__osmatches self) ->
  (exists r, NmapOSFingerprint.get_osmatch self (OInt z) = inr r)
  /\ (NmapOSFingerprint.get_osmatch self (OInt z) = inr None <->
      forall m, m ∈ NmapOSFingerprint.__osmatches self ->
                NmapOSMatch.accuracy m <> inr z).
Proof.
  intros Hint. unfold NmapOSFingerprint.get_osmatch.
  destruct (get_osmatch_from_integer_total 0 _ z Hint) as [r Hr].
  split; [exists r; exact Hr|].
  pose proof (get_osmatch_from_integer 0 _ z r Hr) as Hinv. rewrite Hr. split.
  - intros [= ->]. intros m Hm Hacc. destruct (Hinv m Hm) as (a & Ha & Hne).
    congruence.
  - intros Hnone. destruct r as [[j m]|]; [exfalso|reflexivity].
    destruct Hinv as (k & _ & Hk & Hacc & _).
    apply (Hnone m); [apply list_elem_of_lookup; eauto | exact Hacc].
Qed.

Lemma get_osmatch_integer_none_iff_witness :
  (exists r, NmapOSFingerprint.get_osmatch two_matches (OInt 50) = inr r)
  /\ (NmapOSFingerprint.get_osmatch two_matches (OInt 50) = inr None <->
      forall m, m ∈ NmapOSFingerprint.__osmatches two_matches ->
                NmapOSMatch.accuracy m <> inr 50%Z).
Proof.
  apply (get_osmatch_integer_none_iff two_matches 50).
  repeat constructor; eexists; reflexivity.
Defined.

(** ** How many fingerprints *)

Lemma fingerprint_fields_length (l : list (gmap string string)) :
  (length (fingerprint_fields l) <= length l)%nat
  /\ (length (fingerprint_fields l) = length l <->
      Forall (fun e : gmap string string => is_Some (e !! "fingerprint")) l).
Proof.
  induction l as [|e l [IHle IHeq]]; simpl.
  - split; [lia|]. split; [constructor | reflexivity].
  - unfold fingerprint_fields in *. simpl.
    destruct (e !! "fingerprint") as [text|] eqn:He; simpl.
    + split; [lia|]. split.
      * intros H. constructor; [eauto|]. apply IHeq. lia.
      * intros H. inversion H; subst. f_equal. apply IHeq. assumption.
    + split; [lia|]. split.
      * intros H. lia.
      * intros H. inversion H as [|? ? [text Htext] _]; subst. congruence.
Qed.

(** X21. A reconciler never stores more fingerprints than the
    ['osfingerprints'] group has entries, and it stores as many exactly
    when every entry has a ['fingerprint'] key. *)
Theorem fingerprints_count (d : osfp_data) (fp : NmapOSFingerprint.t)
    (l : list (gmap string string)) :
  NmapOSFingerprint.__init__ d = inr fp -> fd_osfingerprints d = Some l ->
  (length (NmapOSFingerprint.fingerprints fp) <= length l)%nat
  /\ (length (NmapOSFingerprint.fingerprints fp) = length l <->
      Forall (fun e : gmap string string => is_Some (e !! "fingerprint")) l).
Proof.
  intros Hinit Hl.
  apply NmapOSFingerprint_init_inv in Hinit as (ms & ds & _ & _ & ->).
  simpl. rewrite Hl. simpl. apply fingerprint_fields_length.
Qed.

Lemma fingerprints_count_witness :
  (length (NmapOSFingerprint.fingerprints nested_reconciler) <= 3)%nat
  /\ (length (NmapOSFingerprint.fingerprints nested_reconciler) = 3%nat <->
      Forall (fun e : gmap string string => is_Some (e !! "fingerprint"))
        [ {["fingerprint" := "OS:Linux"]}; ∅; {["fingerprint" := "OPS(...)"]} ]).
Proof.
  exact (fingerprints_count report_nested nested_reconciler
           [ {["fingerprint" := "OS:Linux"]}; ∅; {["fingerprint" := "OPS(...)"]} ]
           eq_refl eq_refl).
Defined.

(** ** The error of an orphan class record *)

Lemma add_osclasses_first_error (self : NmapOSFingerprint.t)
    (before after : list osclass_dict) (cd : osclass_dict) (e : pyerr) :
  (before <> [] -> Forall has_int_accuracy (NmapOSFingerprint.__osmatches self)) ->
  Forall constructs_with_accuracy before ->
  NmapOSClass.__init__ cd = inl e ->
  NmapOSFingerprint.add_osclasses self (before ++ cd :: after) = inl e.
Proof.
  intros Hint Hbefore He. revert self Hint.
  induction Hbefore as [|x before (c & a & Hc & Ha) _ IH]; intros self Hint; simpl.
  - rewrite He. reflexivity.
  - specialize (Hint ltac:(discriminate)).
    unfold constructs in Hc. rewrite Hc. simpl.
    unfold NmapOSFingerprint.get_osmatch.
    rewrite (get_osmatch_from_object_returns 0 _ c Hint). simpl.
    rewrite add_dummy_osmatch_eq, Ha. simpl. apply IH. intros _. simpl.
    apply Forall_app. split; [exact Hint|].
    constructor; [apply dummy_has_int_accuracy | constructor].
Qed.

(** X22. When the match records are built and the orphan class records
    before it are built with an integer accuracy (the accuracy of the
    matches being integers when there is such a record before), an
    orphan class record that [NmapOSClass] cannot build ends the
    construction of the reconciler with the error of [NmapOSClass]
    itself, a key error included: unlike the error of a class record
    nested in a match record, it is not replaced by another one. *)
Theorem orphan_class_error_as_raised (d : osfp_data) (ms : list NmapOSMatch.t)
    (before after : list osclass_dict) (cd : osclass_dict) (e : pyerr) :
  Forall2 builds (default [] (fd_osmatches d)) ms ->
  fd_osclasses d = Some (before ++ cd :: after) ->
  (before <> [] -> Forall has_int_accuracy ms) ->
  Forall constructs_with_accuracy before ->
  NmapOSClass.__init__ cd = inl e ->
  NmapOSFingerprint.__init__ d = inl e.
Proof.
  intros Hms Hcs Hint Hbefore He.
  rewrite NmapOSFingerprint_init_eq, Hcs.
  rewrite (add_osmatches_ok fresh _ ms Hms). simpl.
  rewrite (add_osclasses_first_error _ before after cd e); [reflexivity| |
    exact Hbefore | exact He].
  exact Hint.
Qed.

Lemma orphan_class_error_as_raised_witness :
  NmapOSFingerprint.__init__
    {| fd_osmatches := Some [linux_3x];
       fd_osclasses := Some ([cisco_class] ++ linux_class_no_cpe :: [class_no_vendor]);
       fd_osfingerprints := None; fd_ports_used := None |}
  = inl (KeyError "cpe")
  /\ NmapOSMatch.__init__ linux_3x_nesting_no_cpe =
       inl (Exception "Could not create NmapOSClass object").
Proof.
  split; [|reflexivity].
  apply (orphan_class_error_as_raised _ [linux_3x_obj] [cisco_class]
           [class_no_vendor] linux_class_no_cpe).
  - constructor; [reflexivity | constructor].
  - reflexivity.
  - intros _. constructor; [exists 95%Z; reflexivity | constructor].
  - constructor; [|constructor].
    exists cisco_class_obj, 70%Z. split; reflexivity.
  - reflexivity.
Defined.

(** ** Absent groups *)

(** C6, as stated, fails: a report without ['osmatches'] group and with
    one orphan class record is built into a reconciler that stores one
    match, and a report whose ['osclasses'], ['osfingerprints'] and
    ['ports_used'] groups are absent and whose one match record has no
    name is not built. *)
Lemma absent_group_not_enough :
  (fd_osmatches report_only_class = None
   /\ exists fp, NmapOSFingerprint.__init__ report_only_class = inr fp /\
        NmapOSFingerprint.__osmatches fp = [dummy_osmatch cisco_class_obj 70] /\
        NmapOSFingerprint.__osmatches fp <> [])
  /\ (fd_osclasses report_only_nameless = None
      /\ fd_osfingerprints report_only_nameless = None
      /\ fd_ports_used report_only_nameless = None
      /\ NmapOSFingerprint.__init__ report_only_nameless =
           inl (Exception "Cannot create NmapOSClass: missing required key")
      /\ forall fp, NmapOSFingerprint.__init__ report_only_nameless <> inr fp).
Proof.
  split.
  - split; [reflexivity|]. eexists. split; [reflexivity|].
    split; [reflexivity | discriminate].
  - repeat split; try reflexivity. intros fp. discriminate.
Qed.

(** C6, amended. A group that is absent is handled as the same group
    with no entry, so its absence raises nothing by itself: the
    construction returns when the groups that are present can be built.
    A report without any group builds the empty reconciler, and without
    ['osmatches'] and ['osclasses'] the construction always returns and
    stores no match. Without ['osclasses'] the construction returns as
    soon as the match records can be built, and the stored matches are
    those built from them; without ['osmatches'] it returns as soon as
    the orphan class records can be built with an integer accuracy, and
    every stored match is the placeholder of one of them. Without
    ['osfingerprints'] no fingerprint is stored and without
    ['ports_used'] no port is stored. *)
Theorem absent_group_is_empty_group :
  NmapOSFingerprint.__init__
    {| fd_osmatches := None; fd_osclasses := None;
       fd_osfingerprints := None; fd_ports_used := None |} = inr fresh
  /\ (forall cs fps ports,
        NmapOSFingerprint.__init__
          {| fd_osmatches := None; fd_osclasses := cs;
             fd_osfingerprints := fps; fd_ports_used := ports |} =
        NmapOSFingerprint.__init__
          {| fd_osmatches := Some []; fd_osclasses := cs;
             fd_osfingerprints := fps; fd_ports_used := ports |})
  /\ (forall ms fps ports,
        NmapOSFingerprint.__init__
          {| fd_osmatches := ms; fd_osclasses := None;
             fd_osfingerprints := fps; fd_ports_used := ports |} =
        NmapOSFingerprint.__init__
          {| fd_osmatches := ms; fd_osclasses := Some [];
             fd_osfingerprints := fps; fd_ports_used := ports |})
  /\ (forall ms cs ports,
        NmapOSFingerprint.__init__
          {| fd_osmatches := ms; fd_osclasses := cs;
             fd_osfingerprints := None; fd_ports_used := ports |} =
        NmapOSFingerprint.__init__
          {| fd_osmatches := ms; fd_osclasses := cs;
             fd_osfingerprints := Some []; fd_ports_used := ports |})
  /\ (forall ms cs fps,
        NmapOSFingerprint.__init__
          {| fd_osmatches := ms; fd_osclasses := cs;
             fd_osfingerprints := fps; fd_ports_used := None |} =
        NmapOSFingerprint.__init__
          {| fd_osmatches := ms; fd_osclasses := cs;
             fd_osfingerprints := fps; fd_ports_used := Some [] |})
  /\ (forall fps ports,
        exists fp,
          NmapOSFingerprint.__init__
            {| fd_osmatches := None; fd_osclasses := None;
               fd_osfingerprints := fps; fd_ports_used := ports |} = inr fp
          /\ NmapOSFingerprint.__osmatches fp = [])
  /\ (forall (d : osfp_data) (ms : list NmapOSMatch.t),
        fd_osclasses d = None ->
        Forall2 builds (default [] (fd_osmatches d)) ms ->
        NmapOSFingerprint.__init__ d =
          inr {| NmapOSFingerprint.__osmatches := ms;
                 NmapOSFingerprint.__ports_used := default [] (fd_ports_used d);
                 NmapOSFingerprint.__fingerprints :=
                   fingerprint_fields (default [] (fd_osfingerprints d)) |})
  /\ (forall d : osfp_data,
        fd_osmatches d = None ->
        Forall constructs_with_accuracy (default [] (fd_osclasses d)) ->
        exists fp, NmapOSFingerprint.__init__ d = inr fp /\
          Forall2 placeholder_for (default [] (fd_osclasses d))
            (NmapOSFingerprint.__osmatches fp))
  /\ (forall (d : osfp_data) (fp : NmapOSFingerprint.t),
        NmapOSFingerprint.__init__ d = inr fp ->
        (fd_osmatches d = None ->
         Forall2 placeholder_for (default [] (fd_osclasses d))
           (NmapOSFingerprint.__osmatches fp))
        /\ (fd_osclasses d = None ->
            Forall2 builds (default [] (fd_osmatches d))
              (NmapOSFingerprint.__osmatches fp))
        /\ (fd_osfingerprints d = None ->
            NmapOSFingerprint.fingerprints fp = [] /\
            NmapOSFingerprint.fingerprint fp = "")
        /\ (fd_ports_used d = None ->
            NmapOSFingerprint.__ports_used fp = [])).
Proof.
  assert (Hshape :
    forall (d : osfp_data) (fp : NmapOSFingerprint.t),
      NmapOSFingerprint.__init__ d = inr fp ->
      (fd_osmatches d = None ->
       Forall2 placeholder_for (default [] (fd_osclasses d))
         (NmapOSFingerprint.__osmatches fp))
      /\ (fd_osclasses d = None ->
          Forall2 builds (default [] (fd_osmatches d))
            (NmapOSFingerprint.__osmatches fp))
      /\ (fd_osfingerprints d = None ->
          NmapOSFingerprint.fingerprints fp = [] /\
          NmapOSFingerprint.fingerprint fp = "")
      /\ (fd_ports_used d = None ->
          NmapOSFingerprint.__ports_used fp = [])).
  { intros d fp Hinit.
    apply NmapOSFingerprint_init_inv in Hinit as (ms & ds & Hms & Hds & ->).
    simpl. split; [|split; [|split]].
    - intros Hnone. rewrite Hnone in Hms. simpl in Hms.
      apply Forall2_nil_inv_l in Hms as ->. exact Hds.
    - intros Hnone. rewrite Hnone in Hds. simpl in Hds.
      apply Forall2_nil_inv_l in Hds as ->. rewrite app_nil_r. exact Hms.
    - intros ->. split; reflexivity.
    - intros ->. reflexivity. }
  split; [reflexivity|].
  split; [reflexivity|].
  split; [intros ms fps ports; rewrite !NmapOSFingerprint_init_eq; reflexivity|].
  split; [intros ms cs ports; rewrite !NmapOSFingerprint_init_eq; reflexivity|].
  split; [intros ms cs fps; rewrite !NmapOSFingerprint_init_eq; simpl|].
  { destruct (NmapOSFingerprint.add_osmatches fresh (default [] ms))
      as [e|self1] eqn:H1; simpl; [reflexivity|].
    destruct (NmapOSFingerprint.add_osclasses self1 (default [] cs))
      as [e|self2] eqn:H2; simpl; [reflexivity|].
    apply add_osmatches_inv in H1 as (ms1 & _ & ->).
    apply add_osclasses_inv in H2 as (ds & _ & ->).
    reflexivity. }
  split; [|split; [|split; [|exact Hshape]]].
  - intros fps ports. rewrite NmapOSFingerprint_init_eq. simpl.
    eexists. split; reflexivity.
  - intros d ms Hnone Hms. rewrite NmapOSFingerprint_init_eq, Hnone.
    rewrite (add_osmatches_ok fresh _ ms Hms). simpl.
    rewrite add_fingerprints_eq. reflexivity.
  - intros d Hnone Hcs.
    destruct (proj2 (NmapOSFingerprint_init_returns_iff d)) as [fp Hfp].
    { exists []. rewrite Hnone. split; [constructor|].
      split; [exact Hcs|]. intros _. constructor. }
    exists fp. split; [exact Hfp|].
    exact (proj1 (Hshape d fp Hfp) Hnone).
Qed.

Lemma absent_group_is_empty_group_witness :
  NmapOSFingerprint.fingerprints two_matches = []
  /\ NmapOSFingerprint.fingerprint two_matches = ""
  /\ NmapOSFingerprint.__ports_used two_matches = []
  /\ NmapOSFingerprint.__init__
       {| fd_osmatches := Some [linux_3x]; fd_osclasses := None;
          fd_osfingerprints := None; fd_ports_used := None |} =
       inr {| NmapOSFingerprint.__osmatches := [linux_3x_obj];
              NmapOSFingerprint.__ports_used := [];
              NmapOSFingerprint.__fingerprints := [] |}
  /\ (exists fp, NmapOSFingerprint.__init__ report_only_class = inr fp /\
        Forall2 placeholder_for [cisco_class] (NmapOSFingerprint.__osmatches fp)).
Proof.
  destruct absent_group_is_empty_group
    as (_ & _ & _ & _ & _ & _ & Hmatches & Hclasses & Hshape).
  destruct (Hshape report_other_accuracy two_matches eq_refl)
    as (_ & _ & Hfp & Hports).
  destruct (Hfp eq_refl) as [Hfps Htext].
  split; [exact Hfps|]. split; [exact Htext|]. split; [exact (Hports eq_refl)|].
  split.
  - apply (Hmatches
             {| fd_osmatches := Some [linux_3x]; fd_osclasses := None;
                fd_osfingerprints := None; fd_ports_used := None |}
             [linux_3x_obj] eq_refl).
    constructor; [reflexivity | constructor].
  - apply (Hclasses report_only_class eq_refl).
    constructor; [|constructor].
    exists cisco_class_obj, 70%Z. split; reflexivity.
Defined.
